(** * CreateDeployments: copy a template tree, then render its marked files

    A shallow embedding of [scripts/CreateDeployments.py].  The script copies
    a directory of deployment templates to a destination and renders every
    top-level entry whose name ends in [.j2] with Jinja2, against a mapping
    read from a JSON file.

    The file system is a tree of named entries below the working directory;
    paths are lists of names relative to it, and a name given on the command
    line is one component of a path.  Regular files and directories are
    modelled; symbolic links, permissions and time stamps are not.  The
    library calls of the script ([os.path], [open], [os.remove],
    [distutils.dir_util.copy_tree], [os.listdir]) are functions on that tree.
    Jinja2 itself and the order in which the operating system enumerates a
    directory are parameters of the program. *)

From Stdlib Require Import ZArith Ascii.
From stdpp Require Import gmap strings list fin_maps.

#[local] Set Warnings "-register-all".
#[local] Open Scope Z_scope.
#[local] Open Scope nat_scope.

(** ** Strings as Python uses them *)

Module Str.

Definition chars (s : string) : list ascii := String.list_ascii_of_string s.
Definition text (l : list ascii) : string := String.string_of_list_ascii l.

(** [begins p l]: the list [l] starts with the list [p]. *)
Fixpoint begins (p l : list ascii) : bool :=
  match p, l with
  | [], _ => true
  | _ :: _, [] => false
  | a :: p', b :: l' => if decide (a = b) then begins p' l' else false
  end.

(** [s.startswith(p)] *)
Definition startswith (s p : string) : bool := begins (chars p) (chars s).

(** [s.endswith(p)] *)
Definition endswith (s p : string) : bool :=
  begins (reverse (chars p)) (reverse (chars s)).

(** The slice [s[:-k]] for [0 < k]: everything but the last [k]
    characters, and the empty string when [s] is shorter than [k]. *)
Definition slice_to_minus (k : nat) (s : string) : string :=
  text (take (length (chars s) - k) (chars s)).

End Str.

(** ** The file system *)

Inductive node : Type :=
| File (data : string)
| Dir (entries : gmap string node).

Abbreviation path := (list string).

(** The entry a path leads to, starting from [n].  An empty component, as a
    doubled or trailing separator gives, stays in the directory reached so
    far and does not go through a regular file. *)
Fixpoint resolve (p : path) (n : node) : option node :=
  match p with
  | [] => Some n
  | x :: q =>
      match n with
      | Dir es => if decide (x = "") then resolve q n else es !! x ≫= resolve q
      | File _ => None
      end
  end.

(** [os.path.join(p, name)] *)
Definition os_path_join (p : path) (name : string) : path := p ++ [name].

(** The path without its empty components. *)
Definition norm (p : path) : path := filter (λ x, x ≠ "") p.

(** Exceptions that reach the top of the script. *)
Inductive exn : Type :=
| TypeError
| FileNotFoundError
| IsADirectoryError
| NotADirectoryError
| DistutilsFileError
| TemplateNotFound
| TemplateError.

(** Put [v] at path [p], which has no empty component, below the entries
    [es].  With [parents] the missing directories on the way are created (as
    [mkpath] does); without it they must exist.  [None] when a component on
    the way is a regular file, or is missing and may not be created, or when
    [p] is empty and [v] is a file. *)
Fixpoint place (parents : bool) (p : path) (v : node)
    (es : gmap string node) : option (gmap string node) :=
  match p with
  | [] => match v with Dir es' => Some es' | File _ => None end
  | x :: q =>
      match q with
      | [] => Some (<[x := v]> es)
      | _ :: _ =>
          match es !! x with
          | Some (Dir sub) =>
              sub' ← place parents q v sub; Some (<[x := Dir sub']> es)
          | Some (File _) => None
          | None =>
              if parents
              then sub' ← place parents q v ∅; Some (<[x := Dir sub']> es)
              else None
          end
      end
  end.

(** Remove the entry at path [p]; the directories on the way must exist. *)
Fixpoint unlink (p : path) (es : gmap string node) : option (gmap string node) :=
  match p with
  | [] => None
  | x :: q =>
      match q with
      | [] => Some (delete x es)
      | _ :: _ =>
          match es !! x with
          | Some (Dir sub) => sub' ← unlink q sub; Some (<[x := Dir sub']> es)
          | _ => None
          end
      end
  end.

(** The entries [es] with those of the directory at [p] replaced by [d']. *)
Definition graft (p : path) (d' : gmap string node) (es : gmap string node)
    : gmap string node :=
  default es (place true p (Dir d') es).

(** *** [distutils.dir_util.copy_tree]

    [copy_step] is the body of the loop over the names of the source
    directory, for the name [n] whose source entry is [child], with [d] the
    entries of the destination directory so far.  It returns the destination
    entries and whether the step went through; [false] stands for the
    [DistutilsFileError] the library raises.  [rec] is the recursive call. *)
Definition copy_step (rec : node → gmap string node → gmap string node * bool)
    (n : string) (child : node) (d : gmap string node)
    : gmap string node * bool :=
  if Str.startswith n ".nfs" then (d, true)   (* NFS rename files are skipped *)
  else
    match child with
    | Dir _ =>
        (* a directory: [copy_tree(src_name, dst_name)], whose [mkpath]
           fails when the destination name is a regular file *)
        match d !! n with
        | Some (File _) => (d, false)
        | Some (Dir sub) =>
            let '(sub', ok) := rec child sub in (<[n := Dir sub']> d, ok)
        | None =>
            let '(sub', ok) := rec child ∅ in (<[n := Dir sub']> d, ok)
        end
    | File c =>
        (* a file: [copy_file(src_name, dst_name)]; when the destination
           name is a directory the file goes inside it, under its own name *)
        match d !! n with
        | Some (Dir sub) =>
            match sub !! n with
            | Some (Dir _) => (d, false)
            | _ => (<[n := Dir (<[n := File c]> sub)]> d, true)
            end
        | _ => (<[n := File c]> d, true)
        end
    end.

(** The loop of [copy_tree] over a source directory [s], into the entries [d]
    of the destination directory (which [mkpath] has created by then). *)
Fixpoint copy_into (s : node) (d : gmap string node) {struct s}
    : gmap string node * bool :=
  match s with
  | File _ => (d, false)
  | Dir es =>
      map_fold
        (λ n child (acc : gmap string node * bool),
           if acc.2 then copy_step copy_into n child acc.1 else acc)
        (d, true) es
  end.

(** What [copy_step] makes of one name: the source entry [child] under the
    name [n] (if any) meets the destination entry [old] (if any); the result
    is the destination entry afterwards and whether the step went through. *)
Definition copy_entry (n : string) (child old : option node)
    : option node * bool :=
  match child with
  | None => (old, true)
  | Some c =>
      if Str.startswith n ".nfs" then (old, true)
      else
        match c with
        | Dir _ =>
            match old with
            | Some (File _) => (old, false)
            | Some (Dir sub) =>
                let '(sub', ok) := copy_into c sub in (Some (Dir sub'), ok)
            | None =>
                let '(sub', ok) := copy_into c ∅ in (Some (Dir sub'), ok)
            end
        | File data =>
            match old with
            | Some (Dir sub) =>
                match sub !! n with
                | Some (Dir _) => (old, false)
                | _ => (Some (Dir (<[n := File data]> sub)), true)
                end
            | _ => (Some (File data), true)
            end
        end
  end.

(** A measure for induction on trees. *)
Fixpoint size_node (s : node) : nat :=
  match s with
  | File _ => 1
  | Dir es => S (map_fold (λ _ child acc, size_node child + acc) 0 es)
  end.

(** ** The process: world, events, outcomes *)

(** JSON values; numbers are integers here. *)
Inductive json : Type :=
| JNull
| JBool (b : bool)
| JNum (z : Z)
| JStr (s : string)
| JArr (items : list json)
| JObj (fields : list (string * json)).

(** [argparse]'s namespace for the five options of the script.  An option
    that was not given holds Python's [None]. *)
Module Args.
Record t : Type := Make {
  fullStack : bool;
  template : option string;
  app : option string;
  input : option string;
  destination : option string
}.
End Args.

(** The lines the script prints, by kind. *)
Inductive message : Type :=
| ShowArgs (a : Args.t)                 (* print(args) *)
| MissingSource (src_dir : path)        (* src_dir + " does not exist." *)
| Copying (src_dir dest_dir : path)     (* "Copying the template from ..." *)
| Created (app : string).               (* "Deployment for ... created." *)

Inductive event : Type :=
| Printed (line : message)
| Loaded (file : string)
    (* json.load on the input file *)
| Rendered (dest_dir : path) (template_name : string)
    (input_json : gmap string json).
    (* get_template(template_name).render(input_json) *)

Record world : Type := World {
  files : gmap string node;   (* the entries of the working directory *)
  trace : list event          (* what the process did so far, oldest first *)
}.

Definition emit (e : event) (w : world) : world :=
  {| files := files w; trace := trace w ++ [e] |}.

Definition with_files (es : gmap string node) (w : world) : world :=
  {| files := es; trace := trace w |}.

(** How a piece of the script ends: it returns, it calls [exit], or an
    exception leaves it.  Each carries the world at that moment. *)
Inductive outcome : Type :=
| Done (w : world)
| Exited (code : Z) (w : world)
| Raised (e : exn) (w : world).

Definition and_then (o : outcome) (k : world → outcome) : outcome :=
  match o with
  | Done w => k w
  | Exited c w => Exited c w
  | Raised e w => Raised e w
  end.

Definition final (o : outcome) : world :=
  match o with Done w | Exited _ w | Raised _ w => w end.

(** The exit status of the process: 0 when the script runs to its end, the
    argument of [exit], and 1 when an exception is not caught. *)
Definition exit_status (o : outcome) : Z :=
  match o with
  | Done _ => 0%Z
  | Exited c _ => c
  | Raised _ _ => 1%Z
  end.

(** *** Calls into [os] and [open] *)

Definition stat (p : path) (w : world) : option node :=
  resolve p (Dir (files w)).

Definition os_path_exists (p : path) (w : world) : bool :=
  match stat p w with Some _ => true | None => false end.

Definition os_path_isdir (p : path) (w : world) : bool :=
  match stat p w with Some (Dir _) => true | _ => false end.

(** [with open(p, 'w+') as f: f.write(text)]: the file is created or
    replaced; a directory, or a name with a trailing separator, cannot be
    opened for writing, and the directory of the file must exist.  The two
    steps are taken as one: the text is one that can be encoded and written,
    and a failure of [f.write] after [open] has created or emptied the file
    is not modelled. *)
Definition write_text (p : path) (text : string) (w : world) : outcome :=
  match stat p w with
  | Some (Dir _) => Raised IsADirectoryError w
  | _ =>
      if decide (last p = Some "") then Raised NotADirectoryError w
      else
        match place false (norm p) (File text) (files w) with
        | Some es => Done (with_files es w)
        | None => Raised FileNotFoundError w
        end
  end.

(** [os.remove(p)] *)
Definition os_remove (p : path) (w : world) : outcome :=
  match stat p w with
  | Some (File _) =>
      match unlink (norm p) (files w) with
      | Some es => Done (with_files es w)
      | None => Raised FileNotFoundError w
      end
  | Some (Dir _) => Raised IsADirectoryError w
  | None => Raised FileNotFoundError w
  end.

(** The entries of a directory that may not exist yet. *)
Definition entries_of (o : option node) : gmap string node :=
  match o with Some (Dir d) => d | _ => ∅ end.

(** [copy_tree(src, dst)] with the default flags.  The source is read as it
    is when the call starts, which is what the library does when the two
    directories are the same or disjoint.  When the copy fails half way the
    entries copied so far stay. *)
Definition copy_tree (src dst : path) (w : world) : outcome :=
  match stat src w with
  | Some (Dir _ as s) =>
      match stat dst w with
      | Some (File _) => Raised DistutilsFileError w
      | dst_now =>
          let '(d', ok) := copy_into s (entries_of dst_now) in
          match place true (norm dst) (Dir d') (files w) with
          | Some es =>
              if ok then Done (with_files es w)
              else Raised DistutilsFileError (with_files es w)
          | None => Raised DistutilsFileError w
          end
      end
  | _ => Raised DistutilsFileError w
  end.

(** [config.update(fields)] on a Python dict: later keys win. *)
Definition dict_update (config : gmap string json)
    (fields : list (string * json)) : gmap string json :=
  foldl (λ m kv, <[kv.1 := kv.2]> m) config fields.

(** A name as a directory lists it: not empty, not [.] or [..], and
    without a separator. *)
Definition plain_name (s : string) : bool :=
  bool_decide (s ∉ [""; "."; ".."]) && bool_decide ("/"%char ∉ Str.chars s).

(** [os.path.join(cwd, a, b)] where [a] and [b] may be [None].  Each of [a]
    and [b] is taken as one component of the path: for a [plain_name] that
    is what [os.path.join] and the operating system make of it, while
    separators, [.], [..] and absolute parts inside a name are not
    interpreted. *)
Definition os_path_join3 (cwd : path) (a b : option string) : option path :=
  a' ← a; b' ← b; Some (os_path_join (os_path_join cwd a') b').

(** ** The script *)

Record Environment : Type := {
  loader : path;            (* FileSystemLoader(dest_dir) *)
  trim_blocks : bool;
  lstrip_blocks : bool
}.

Module Opts.
Record t : Type := Make {
  inputJSON : gmap string json;
  cwd : path;
  srcDir : path;
  destDir : path;
  app : string
}.
End Opts.

Definition components : list string := ["lambda"].

Section Script.

(** Jinja2: the text a template source renders to in an environment, given
    the file system the loader reads and the variables; [None] when Jinja2
    raises (a syntax error, an undefined name in strict use, a missing
    include). *)
Variable jinja_render :
  Environment → gmap string node → string → gmap string json → option string.

(** The order in which [os.listdir] returns a set of names. *)
Variable listing : list string → list string.

Definition os_listdir (p : path) (w : world) : exn + list string :=
  match stat p w with
  | Some (Dir es) => inr (listing (map_to_list es).*1)
  | Some (File _) => inl NotADirectoryError
  | None => inl FileNotFoundError
  end.

(** [j2_env.get_template(template_name).render(input_json)]: the loader
    serves regular files only. *)
Definition get_template_render (j2_env : Environment)
    (template_name : string) (input_json : gmap string json) (w : world)
    : exn + string :=
  match stat (os_path_join (loader j2_env) template_name) w with
  | Some (File source) =>
      match jinja_render j2_env (files w) source input_json with
      | Some rendered => inr rendered
      | None => inl TemplateError
      end
  | _ => inl TemplateNotFound
  end.

Definition render_template (dest_dir : path)
    (template_name file_name : string) (input_json : gmap string json)
    (w : world) : outcome :=
  let j2_env :=
    {| loader := dest_dir; trim_blocks := true; lstrip_blocks := true |} in
  let template_file := os_path_join dest_dir template_name in
  if negb (os_path_exists template_file w) then Done w
  else
    let w := emit (Rendered dest_dir template_name input_json) w in
    match get_template_render j2_env template_name input_json w with
    | inl e => Raised e w
    | inr rendered_template =>
        let output_file_path := os_path_join dest_dir file_name in
        and_then (write_text output_file_path rendered_template w)
          (* Remove the original .j2 template *)
          (os_remove template_file)
    end.

(** The loop [for fname in names: if fname.endswith('.j2'): ...]. *)
Fixpoint render_marked (dest_dir : path) (names : list string)
    (input_json : gmap string json) (w : world) : outcome :=
  match names with
  | [] => Done w
  | fname :: rest =>
      if Str.endswith fname ".j2"
      then
        and_then
          (render_template dest_dir fname (Str.slice_to_minus 3 fname)
             input_json w)
          (render_marked dest_dir rest input_json)
      else render_marked dest_dir rest input_json w
  end.

Definition deploy_app (opts : Opts.t) (w : world) : outcome :=
  let src_dir := Opts.srcDir opts in
  let dest_dir := Opts.destDir opts in
  if negb (os_path_exists src_dir w)
  then Exited 1 (emit (Printed (MissingSource src_dir)) w)
  else
    let w := emit (Printed (Copying src_dir dest_dir)) w in
    and_then (copy_tree src_dir dest_dir w) (λ w,
      (* Render all .j2 files dynamically *)
      match os_listdir dest_dir w with
      | inl e => Raised e w
      | inr names =>
          and_then (render_marked dest_dir names (Opts.inputJSON opts) w)
            (λ w, Done (emit (Printed (Created (Opts.app opts))) w))
      end).

(** The loop [for component in components] of full-stack mode. *)
Fixpoint deploy_components (comps : list string) (args : Args.t)
    (config : gmap string json) (cwd : path) (w : world) : outcome :=
  match comps with
  | [] => Done w
  | component :: rest =>
      match os_path_join3 cwd (Args.template args) (Some component),
            os_path_join3 cwd (Args.destination args) (Some component) with
      | Some src, Some dst =>
          and_then
            (deploy_app
               {| Opts.inputJSON := config; Opts.cwd := cwd;
                  Opts.srcDir := src; Opts.destDir := dst;
                  Opts.app := component |} w)
            (deploy_components rest args config cwd)
      | _, _ => Raised TypeError w
      end
  end.

(** The script after [parse_args].  [docs] gives, for the name of a file,
    the JSON object [json.load] reads from it at that moment; a name
    without one cannot be opened.  [fs] is the working directory. *)
Definition run (args : Args.t) (docs : gmap string (list (string * json)))
    (fs : gmap string node) : outcome :=
  let w := emit (Printed (ShowArgs args)) {| files := fs; trace := [] |} in
  (* Load input JSON *)
  match Args.input args with
  | None => Raised TypeError w
  | Some file =>
      match docs !! file with
      | None => Raised FileNotFoundError w
      | Some fields =>
          let w := emit (Loaded file) w in
          let config := dict_update ∅ fields in
          let cwd : path := [] in
          if Args.fullStack args
          then deploy_components components args config cwd w
          else
            match os_path_join3 cwd (Args.template args) (Args.app args),
                  os_path_join3 cwd (Args.destination args) (Args.app args)
            with
            | Some src, Some dst =>
                match Args.app args with
                | Some name =>
                    deploy_app
                      {| Opts.inputJSON := config; Opts.cwd := cwd;
                         Opts.srcDir := src; Opts.destDir := dst;
                         Opts.app := name |} w
                | None => Raised TypeError w
                end
            | _, _ => Raised TypeError w
            end
      end
  end.

End Script.

(** *** The command line

    [parse_args] for the parser the script builds: the flag [--fullStack] and
    four options that take one value each, none of them declared required,
    and the [-h/--help] that [argparse] adds.  Options are read in their
    exact spellings with the value as the next word; abbreviated options and
    the forms [--opt=value] and [-ovalue] are not modelled.  A word that is
    no option, or a value that is missing, is a usage error. *)
Inductive parsed : Type :=
| Namespace (args : Args.t)
| HelpShown
| UsageError.

Definition default_args : Args.t :=
  {| Args.fullStack := false; Args.template := None; Args.app := None;
     Args.input := None; Args.destination := None |}.

Definition store_option (opt value : string) (a : Args.t) : option Args.t :=
  if bool_decide (opt ∈ ["-t"; "--template"]) then
    Some {| Args.fullStack := Args.fullStack a; Args.template := Some value;
            Args.app := Args.app a; Args.input := Args.input a;
            Args.destination := Args.destination a |}
  else if bool_decide (opt ∈ ["-a"; "--app"]) then
    Some {| Args.fullStack := Args.fullStack a; Args.template := Args.template a;
            Args.app := Some value; Args.input := Args.input a;
            Args.destination := Args.destination a |}
  else if bool_decide (opt ∈ ["-i"; "--input"]) then
    Some {| Args.fullStack := Args.fullStack a; Args.template := Args.template a;
            Args.app := Args.app a; Args.input := Some value;
            Args.destination := Args.destination a |}
  else if bool_decide (opt ∈ ["-d"; "--destination"]) then
    Some {| Args.fullStack := Args.fullStack a; Args.template := Args.template a;
            Args.app := Args.app a; Args.input := Args.input a;
            Args.destination := Some value |}
  else None.

Fixpoint parse_from (argv : list string) (a : Args.t) : parsed :=
  match argv with
  | [] => Namespace a
  | word :: rest =>
      if bool_decide (word ∈ ["-h"; "--help"]) then HelpShown
      else if decide (word = "--fullStack") then
        parse_from rest
          {| Args.fullStack := true; Args.template := Args.template a;
             Args.app := Args.app a; Args.input := Args.input a;
             Args.destination := Args.destination a |}
      else
        match rest with
        | value :: rest' =>
            if Str.startswith value "-" then UsageError
            else
              match store_option word value a with
              | Some a' => parse_from rest' a'
              | None => UsageError
              end
        | [] => UsageError
        end
  end.

Definition parse_args (argv : list string) : parsed :=
  parse_from argv default_args.

(** The whole [__main__] block.  [argparse] ends the process with status 0
    after printing the help and with status 2 on a usage error. *)
Definition main
    (jinja_render :
       Environment → gmap string node → string → gmap string json → option string)
    (listing : list string → list string)
    (argv : list string) (docs : gmap string (list (string * json)))
    (fs : gmap string node) : outcome :=
  match parse_args argv with
  | Namespace args => run jinja_render listing args docs fs
  | HelpShown => Exited 0 {| files := fs; trace := [] |}
  | UsageError => Exited 2 {| files := fs; trace := [] |}
  end.

(** ** A small renderer for the examples

    [tiny_jinja] renders a source whose only markup is [{{ name }}] with
    [name] a variable holding a string: the variable's value replaces the
    expression and an undefined variable renders as the empty string, as
    Jinja2 does by default.  An expression that is not closed is an error.
    It reads neither the environment nor the file system. *)
Module Tiny.

Definition variable (name : list ascii) (vars : gmap string json)
    : option (list ascii) :=
  match vars !! Str.text (filter (λ c, c ≠ " "%char) name) with
  | Some (JStr s) => Some (Str.chars s)
  | Some _ => None
  | None => Some []
  end.

(** [expr] is [None] outside an expression and otherwise holds the
    characters of the expression read so far, last first. *)
Fixpoint scan (src : list ascii) (expr : option (list ascii))
    (vars : gmap string json) : option (list ascii) :=
  match src, expr with
  | [], None => Some []
  | [], Some _ => None
  | a :: rest, None =>
      match rest with
      | b :: rest' =>
          if decide (a = "{"%char ∧ b = "{"%char)
          then scan rest' (Some []) vars
          else (a ::.) <$> scan rest None vars
      | [] => Some [a]
      end
  | a :: rest, Some name =>
      match rest with
      | b :: rest' =>
          if decide (a = "}"%char ∧ b = "}"%char)
          then
            v ← variable (reverse name) vars;
            out ← scan rest' None vars;
            Some (v ++ out)
          else scan rest (Some (a :: name)) vars
      | [] => None
      end
  end.

Definition tiny_jinja (env : Environment) (fs : gmap string node)
    (source : string) (vars : gmap string json) : option string :=
  Str.text <$> scan (Str.chars source) None vars.

End Tiny.


(** ** Vocabulary of the statements *)

Abbreviation marked n := (Str.endswith n ".j2" = true).
Abbreviation unmarked n := (Str.slice_to_minus 3 n).
Abbreviation skipped n := (Str.startswith n ".nfs" = true).
Abbreviation env_of dd :=
  {| loader := dd; trim_blocks := true; lstrip_blocks := true |}.



(** No marked name of [l] has its unmarked name in [l] as another marked
    name: the list holds no pair [x.j2.j2], [x.j2]. *)
Definition apart (l : list string) : Prop :=
  ∀ m, m ∈ l → marked m → ¬ (marked (unmarked m) ∧ unmarked m ∈ l).

Section RenderSpec.
Variable jinja_render :
  Environment → gmap string node → string → gmap string json → option string.
Variables (dd : path) (ctx : gmap string json).

(** Jinja2 renders [source] to [out], in some state of the file system. *)
Definition renders (source out : string) : Prop :=
  ∃ es, jinja_render (env_of dd) es source ctx = Some out.

(** The entry [r] under the name [n] once the loop over the names [l] has
    gone through a directory with the entries [d]: the rendering of the
    template [n.j2] where the loop met one, nothing where [n] itself was a
    template, and the former entry otherwise. *)
Definition entry_after (l : list string) (d : gmap string node)
    (n : string) (r : option node) : Prop :=
  (n +:+ ".j2" ∈ l ∧
     ∃ source out, d !! (n +:+ ".j2") = Some (File source) ∧
       renders source out ∧ r = Some (File out) ∧
       n ≠ "" ∧ ∀ s, d !! n ≠ Some (Dir s))
  ∨ (¬ (n +:+ ".j2" ∈ l ∧ is_Some (d !! (n +:+ ".j2"))) ∧
     if decide (marked n ∧ n ∈ l) then r = None else r = d !! n).
End RenderSpec.

(** The input files a trace shows as loaded, and the variables it shows as
    handed to Jinja2, oldest first. *)
Definition loads (t : list event) : list string :=
  omap (λ ev, match ev with Loaded file => Some file | _ => None end) t.

Definition contexts (t : list event) : list (gmap string json) :=
  omap (λ ev, match ev with Rendered _ _ c => Some c | _ => None end) t.

(** The outcome [o] of a piece of script started in [w] added, to the trace
    of [w], no load and only renderings against [config]. *)
Definition extends (config : gmap string json) (w : world) (o : outcome) : Prop :=
  ∃ evs, trace (final o) = trace w ++ evs ∧ loads evs = [] ∧
         Forall (λ c, c = config) (contexts evs).

Definition no_exit (o : outcome) : Prop :=
  match o with Exited _ _ => False | _ => True end.

(** No marked name of the directory has, as its name without the marker,
    another marked name of the directory: no [x.j2.j2] beside [x.j2]. *)
Definition no_marked_pair (d : gmap string node) : Prop :=
  ∀ m, is_Some (d !! m) → marked m → marked (unmarked m) →
       d !! unmarked m = None.

(** No name of the directory carries the marker twice. *)
Definition no_twice_marked (d : gmap string node) : Prop :=
  ∀ m, is_Some (d !! m) → marked m → Str.endswith (unmarked m) ".j2" = false.

(** The two conditions above, checked name by name. *)
Definition no_marked_pair_b (d : gmap string node) : bool :=
  forallb
    (λ m, negb (Str.endswith m ".j2" && Str.endswith (unmarked m) ".j2"
                && bool_decide (is_Some (d !! unmarked m))))
    (map_to_list d).*1.

Definition no_twice_marked_b (d : gmap string node) : bool :=
  forallb
    (λ m, negb (Str.endswith m ".j2" && Str.endswith (unmarked m) ".j2"))
    (map_to_list d).*1.



(** ** Vocabulary for the further properties *)

(** Two paths part ways: after a common beginning each goes on with a name
    of its own. *)
Definition diverge (p q : path) : Prop :=
  ∃ c x y p' q', p = c ++ x :: p' ∧ q = c ++ y :: q' ∧ x ≠ y.

(** The rendering events of the names [names], in that order. *)
Definition renderings (dd : path) (ctx : gmap string json)
    (names : list string) : list event :=
  (λ n, Rendered dd n ctx) <$> names.

(** The marked names of a list, in its order. *)
Definition marked_of (l : list string) : list string :=
  filter (λ n, marked n) l.

(** The outcome [o] of a piece of script started in [w] left alone what is
    not on the way to [q] or below it: a path that parts from [q] leads to
    what it led to in [w]. *)
Definition keeps_outside (q : path) (w : world) (o : outcome) : Prop :=
  ∀ p, Forall (λ x, x ≠ "") p → diverge p q → stat p (final o) = stat p w.

(** Two outcomes end the same way, with the same files: the traces may
    differ. *)
Definition same_end (o o' : outcome) : Prop :=
  match o, o' with
  | Done w, Done w' => files w = files w'
  | Exited c w, Exited c' w' => c = c' ∧ files w = files w'
  | Raised e w, Raised e' w' => e = e' ∧ files w = files w'
  | _, _ => False
  end.


(** ** Concrete inputs for the examples *)

Module Fixture.

Definition docs : gmap string (list (string * json)) :=
  {[ "in.json" := [("name", JStr "Ada")] ]}.

Definition ada : gmap string json := {[ "name" := JStr "Ada" ]}.

Definition start (fs : gmap string node) : world :=
  {| files := fs; trace := [] |}.

(** An application with one template, one plain file and a subdirectory
    that holds a marked file. *)
Definition web : gmap string node :=
  {[ "greeting.txt.j2" := File "Hello, {{ name }}!";
     "config.yaml" := File "replicas: 2";
     "charts" := Dir {[ "values.yaml.j2" := File "name: {{ name }}" ]} ]}.

Definition fs_web : gmap string node :=
  {[ "tpl" := Dir {[ "web" := Dir web ]} ]}.

Definition argv_web : list string :=
  ["-t"; "tpl"; "-a"; "web"; "-i"; "in.json"; "-d"; "out"].

Definition args_web : Args.t :=
  {| Args.fullStack := false; Args.template := Some "tpl";
     Args.app := Some "web"; Args.input := Some "in.json";
     Args.destination := Some "out" |}.

(** The same command line without an application name. *)
Definition argv_no_app : list string :=
  ["-t"; "tpl"; "-i"; "in.json"; "-d"; "out"].

Definition args_no_app : Args.t :=
  {| Args.fullStack := false; Args.template := Some "tpl";
     Args.app := None; Args.input := Some "in.json";
     Args.destination := Some "out" |}.

(** Full-stack mode. *)
Definition argv_full : list string :=
  ["--fullStack"; "-t"; "tpl"; "-i"; "in.json"; "-d"; "out"].

Definition args_full : Args.t :=
  {| Args.fullStack := true; Args.template := Some "tpl";
     Args.app := None; Args.input := Some "in.json";
     Args.destination := Some "out" |}.

(** The registered component, with a template whose expression is not
    closed. *)
Definition fs_broken : gmap string node :=
  {[ "tpl" := Dir {[ "lambda" := Dir {[ "function.yaml.j2" := File "name: {{ name" ]} ]} ]}.

(** A destination directory as a copy leaves it. *)
Definition out_web : gmap string node :=
  {[ "out" := Dir {[ "greeting.txt.j2" := File "Hello, {{ name }}!" ]} ]}.

Definition out_broken : gmap string node :=
  {[ "out" := Dir {[ "function.yaml.j2" := File "name: {{ name" ]} ]}.


Definition opts_web : Opts.t :=
  {| Opts.inputJSON := ada; Opts.cwd := []; Opts.srcDir := ["tpl"; "web"];
     Opts.destDir := ["out"; "web"]; Opts.app := "web" |}.

(** A destination that already holds a file the source does not have. *)
Definition plain : gmap string node :=
  {[ "config.yaml" := File "replicas: 2" ]}.

Definition fs_stale : gmap string node :=
  {[ "tpl" := Dir {[ "web" := Dir plain ]};
     "out" := Dir {[ "web" := Dir {[ "stale.txt" := File "old" ]} ]} ]}.



(** A source with a name that carries the marker twice, beside the name
    it renders to. *)
Definition pair : gmap string node :=
  {[ "a.j2" := File "one"; "a.j2.j2" := File "two" ]}.

Definition fs_pair : gmap string node :=
  {[ "tpl" := Dir {[ "web" := Dir pair ]} ]}.



(** A destination with a marked file left from before, and a source
    with the file it renders to. *)
Definition fs_leftover : gmap string node :=
  {[ "tpl" := Dir {[ "web" := Dir {[ "a" := File "new" ]} ]};
     "out" := Dir {[ "web" := Dir {[ "a.j2" := File "old" ]} ]} ]}.

(** An order of listing that differs between a directory of two names
    and the others. *)
Definition two_first (l : list string) : list string :=
  if decide (length l = 2) then l else reverse l.

(** A renderer that reads the loader directory, as a Jinja2 template does
    that includes another file and ignores a missing one: the source is
    the name of a file, and it renders to the text of that file, if there
    is one, followed by an exclamation mark. *)
Definition including (env : Environment) (fs : gmap string node)
    (source : string) (vars : gmap string json) : option string :=
  Some (match resolve (os_path_join (loader env) source) (Dir fs) with
        | Some (File t) => t
        | _ => ""
        end +:+ "!").

Definition fs_including : gmap string node :=
  {[ "tpl" := Dir {[ "web" := Dir {[ "greeting.txt.j2" := File "greeting.txt" ]} ]} ]}.




End Fixture.


(** ** Further concrete inputs *)

Module Sample.


(** A directory with two templates and a plain file. *)
Definition two_templates : gmap string node :=
  {[ "greeting.txt.j2" := File "Hello, {{ name }}!";
     "name.txt.j2" := File "{{ name }}";
     "config.yaml" := File "replicas: 2" ]}.

(** A directory with a name that carries the marker twice. *)
Definition twice : gmap string node :=
  {[ "a.j2.j2" := File "Dear {{ name }}"; "b.j2" := File "one" ]}.

(** The name of the application is a regular file of the template
    directory. *)
Definition fs_file_source : gmap string node :=
  {[ "tpl" := Dir {[ "web" := File "not a directory" ]} ]}.

(** The registered component, and no other. *)
Definition fs_lambda : gmap string node :=
  {[ "tpl" := Dir {[ "lambda" := Dir {[ "function.yaml.j2" := File "name: {{ name }}" ]} ]} ]}.

(** A command line without a destination. *)
Definition args_no_destination : Args.t :=
  {| Args.fullStack := false; Args.template := Some "tpl";
     Args.app := Some "web"; Args.input := Some "in.json";
     Args.destination := None |}.

Definition opts_lambda : Opts.t :=
  {| Opts.inputJSON := Fixture.ada; Opts.cwd := [];
     Opts.srcDir := ["tpl"; "lambda"]; Opts.destDir := ["out"; "lambda"];
     Opts.app := "lambda" |}.

(** Full-stack mode with an application name beside it. *)
Definition args_full_app : Args.t :=
  {| Args.fullStack := true; Args.template := Some "tpl";
     Args.app := Some "web"; Args.input := Some "in.json";
     Args.destination := Some "out" |}.

End Sample.


(** * Properties *)

(** ** Strings *)
Module StrFacts.
Import Str.

Lemma text_chars s : text (chars s) = s.
Proof. apply String.string_of_list_ascii_of_string. Qed.

Lemma chars_text l : chars (text l) = l.
Proof. apply String.list_ascii_of_string_of_list_ascii. Qed.

Lemma chars_app a b : chars (a +:+ b) = chars a ++ chars b.
Proof. induction a as [|c a IH]; simpl; [done|]. unfold chars in *. simpl. by rewrite IH. Qed.

Lemma chars_inj a b : chars a = chars b → a = b.
Proof. intros H. rewrite <- (text_chars a), <- (text_chars b). by rewrite H. Qed.

Lemma begins_spec p l : begins p l = true ↔ ∃ r, l = p ++ r.
Proof.
  revert l. induction p as [|a p IH]; intros l; simpl.
  - split; [eauto|done].
  - destruct l as [|b l].
    + split; [done|]. intros [r Hr]. discriminate.
    + destruct (decide (a = b)) as [->|Hne].
      * rewrite IH. split; intros [r Hr]; exists r; simpl in *; congruence.
      * split; [done|]. intros [r Hr]. simpl in Hr. congruence.
Qed.

Lemma endswith_spec s suf : endswith s suf = true ↔ ∃ t, s = t +:+ suf.
Proof.
  unfold endswith. rewrite begins_spec. split.
  - intros [r Hr]. exists (text (reverse r)).
    apply chars_inj. rewrite chars_app, chars_text.
    apply (inj reverse). by rewrite reverse_app, reverse_involutive.
  - intros [t ->]. exists (reverse (chars t)).
    by rewrite chars_app, reverse_app.
Qed.

Lemma slice_app t suf :
  slice_to_minus (length (chars suf)) (t +:+ suf) = t.
Proof.
  unfold slice_to_minus. rewrite chars_app, length_app.
  replace (length (chars t) + length (chars suf) - length (chars suf))
    with (length (chars t)) by lia.
  by rewrite take_app_length, text_chars.
Qed.

Lemma startswith_app s p t : startswith s p = true → startswith (s +:+ t) p = true.
Proof.
  unfold startswith. rewrite !begins_spec. intros [r Hr].
  exists (r ++ chars t). by rewrite chars_app, Hr, (assoc_L (++)).
Qed.
End StrFacts.

(** ** Paths: [resolve], [place], [unlink], [graft] *)
Section Paths.
Implicit Types (p q : path) (es d : gmap string node) (n v : node).

Lemma resolve_app p q n : resolve (p ++ q) n = resolve p n ≫= resolve q.
Proof.
  revert n. induction p as [|x p IH]; intros n; simpl; [done|].
  destruct n as [c|es]; [done|].
  destruct (decide (x = "")); [apply IH|].
  destruct (es !! x); simpl; [apply IH|done].
Qed.

Lemma resolve_child p n x :
  resolve (p ++ [x]) n =
    resolve p n ≫= λ m,
      match m with
      | Dir d => if decide (x = "") then Some (Dir d) else d !! x
      | File _ => None
      end.
Proof.
  rewrite resolve_app. destruct (resolve p n) as [[c|d]|]; simpl; [done| |done].
  destruct (decide (x = "")); [done|]. by destruct (d !! x).
Qed.

Lemma resolve_norm p n v : resolve p n = Some v → resolve (norm p) n = Some v.
Proof.
  revert n. induction p as [|x p IH]; intros n; [done|].
  destruct n as [c|es]; [done|]. unfold norm.
  destruct (decide (x = "")) as [->|Hx].
  - rewrite filter_cons_False by (intros H; done). apply IH.
  - rewrite filter_cons_True by done. cbn [resolve].
    rewrite !decide_False by done.
    destruct (es !! x); simpl; [apply IH|done].
Qed.

Lemma resolve_norm_dir p n d :
  resolve (norm p) n = Some (Dir d) → resolve p n = Some (Dir d).
Proof.
  revert n. induction p as [|x p IH]; intros n; [done|].
  unfold norm. destruct (decide (x = "")) as [->|Hx].
  - rewrite filter_cons_False by (intros H; done).
    destruct n as [c|es].
    + intros H. fold (norm p) in H. destruct (norm p); simpl in H; done.
    + simpl. apply IH.
  - rewrite filter_cons_True by done. simpl.
    destruct n as [c|es]; [done|]. rewrite !decide_False by done.
    destruct (es !! x); simpl; [apply IH|done].
Qed.

Lemma norm_Forall p : Forall (λ x, x ≠ "") (norm p).
Proof. unfold norm. apply Forall_forall. intros x Hx%list_elem_of_filter. tauto. Qed.

Lemma norm_snoc p x : x ≠ "" → norm (p ++ [x]) = norm p ++ [x].
Proof.
  intros Hx. unfold norm. rewrite filter_app. f_equal.
  by rewrite filter_cons_True.
Qed.

Lemma place_child b q x v es d :
  Forall (λ x, x ≠ "") q → resolve q (Dir es) = Some (Dir d) →
  place b (q ++ [x]) v es = place true q (Dir (<[x := v]> d)) es.
Proof.
  intros Hq. revert es. induction Hq as [|y q Hy Hq IH]; intros es Hr; simpl in *.
  - by simplify_eq.
  - rewrite decide_False in Hr by done.
    destruct (es !! y) as [c|] eqn:Ey; simpl in Hr; [|done].
    destruct q as [|z q]; simpl in *.
    + simplify_eq. done.
    + destruct c as [c|sub]; [done|].
      rewrite (IH sub Hr). done.
Qed.

Lemma unlink_child q x es d :
  Forall (λ x, x ≠ "") q → resolve q (Dir es) = Some (Dir d) →
  unlink (q ++ [x]) es = place true q (Dir (delete x d)) es.
Proof.
  intros Hq. revert es. induction Hq as [|y q Hy Hq IH]; intros es Hr; simpl in *.
  - by simplify_eq.
  - rewrite decide_False in Hr by done.
    destruct (es !! y) as [c|] eqn:Ey; simpl in Hr; [|done].
    destruct q as [|z q]; simpl in *.
    + simplify_eq. done.
    + destruct c as [c|sub]; [done|].
      rewrite (IH sub Hr). done.
Qed.

Lemma place_resolve q d' es es' :
  Forall (λ x, x ≠ "") q → place true q (Dir d') es = Some es' →
  resolve q (Dir es') = Some (Dir d').
Proof.
  intros Hq. revert es es'. induction Hq as [|y q Hy Hq IH]; intros es es' Hp; simpl in *.
  - by simplify_eq.
  - rewrite decide_False by done.
    destruct q as [|z q].
    + simplify_eq. by rewrite lookup_insert_eq.
    + destruct (es !! y) as [[c|sub]|] eqn:Ey; [done| |].
      * destruct (place true (z :: q) (Dir d') sub) as [sub'|] eqn:Es; simplify_eq/=.
        rewrite lookup_insert_eq. simpl. by apply (IH sub).
      * destruct (place true (z :: q) (Dir d') ∅) as [sub'|] eqn:Es; simplify_eq/=.
        rewrite lookup_insert_eq. simpl. by apply (IH ∅).
Qed.

Lemma place_same q d es :
  Forall (λ x, x ≠ "") q → resolve q (Dir es) = Some (Dir d) →
  place true q (Dir d) es = Some es.
Proof.
  intros Hq. revert es. induction Hq as [|y q Hy Hq IH]; intros es Hr; simpl in *.
  - by simplify_eq.
  - rewrite decide_False in Hr by done.
    destruct (es !! y) as [c|] eqn:Ey; simpl in Hr; [|done].
    destruct q as [|z q].
    + simpl in Hr. simplify_eq. by rewrite insert_id.
    + destruct c as [c|sub]; [done|].
      rewrite (IH sub Hr). simpl. by rewrite insert_id.
Qed.

Lemma place_defined q d d' es :
  Forall (λ x, x ≠ "") q → resolve q (Dir es) = Some (Dir d) →
  is_Some (place true q (Dir d') es).
Proof.
  intros Hq. revert es. induction Hq as [|y q Hy Hq IH]; intros es Hr; simpl in *.
  - done.
  - rewrite decide_False in Hr by done.
    destruct (es !! y) as [c|] eqn:Ey; simpl in Hr; [|done].
    destruct q as [|z q]; [done|].
    destruct c as [c|sub]; [done|].
    destruct (IH sub Hr) as [sub' ->]. done.
Qed.

Lemma place_cons2 b x y q v es :
  place b (x :: y :: q) v es =
    match es !! x with
    | Some (Dir sub) => sub' ← place b (y :: q) v sub; Some (<[x := Dir sub']> es)
    | Some (File _) => None
    | None =>
        if b then sub' ← place b (y :: q) v ∅; Some (<[x := Dir sub']> es)
        else None
    end.
Proof. done. Qed.

Lemma place_place q v v' es es1 :
  place true q v es = Some es1 → place true q v' es1 = place true q v' es.
Proof.
  revert es es1. induction q as [|y q IH]; intros es es1 Hp; [done|].
  destruct q as [|z q].
  - simpl in *. simplify_eq. by rewrite insert_insert_eq.
  - rewrite place_cons2 in Hp. rewrite !place_cons2.
    destruct (es !! y) as [[c|sub]|] eqn:Ey; [done| |].
    + destruct (place true (z :: q) v sub) as [sub'|] eqn:Es;
        [|discriminate Hp]. injection Hp as <-.
      rewrite lookup_insert_eq, (IH _ _ Es).
      destruct (place true (z :: q) v' sub); simpl; [|done].
      by rewrite insert_insert_eq.
    + destruct (place true (z :: q) v ∅) as [sub'|] eqn:Es;
        [|discriminate Hp]. injection Hp as <-.
      rewrite lookup_insert_eq, (IH _ _ Es).
      destruct (place true (z :: q) v' ∅); simpl; [|done].
      by rewrite insert_insert_eq.
Qed.

(** [graft] on a directory that exists *)
Lemma graft_resolve q d d' es :
  Forall (λ x, x ≠ "") q → resolve q (Dir es) = Some (Dir d) →
  resolve q (Dir (graft q d' es)) = Some (Dir d').
Proof.
  intros Hq Hr. unfold graft.
  destruct (place_defined q d d' es Hq Hr) as [es' He]. rewrite He. simpl.
  by eapply place_resolve.
Qed.

Lemma graft_graft q d d' d'' es :
  Forall (λ x, x ≠ "") q → resolve q (Dir es) = Some (Dir d) →
  graft q d'' (graft q d' es) = graft q d'' es.
Proof.
  intros Hq Hr. unfold graft.
  destruct (place_defined q d d' es Hq Hr) as [es' He]. rewrite He. simpl.
  rewrite (place_place _ _ _ _ _ He).
  by destruct (place_defined q d d'' es Hq Hr) as [es'' ->].
Qed.

Lemma graft_same q d es :
  Forall (λ x, x ≠ "") q → resolve q (Dir es) = Some (Dir d) → graft q d es = es.
Proof. intros Hq Hr. unfold graft. by rewrite place_same. Qed.
End Paths.

(** ** The marker [.j2] *)
Section Marker.
Import StrFacts.

Lemma marked_app n : marked (n +:+ ".j2").
Proof. apply endswith_spec. by exists n. Qed.

Lemma unmarked_app n : unmarked (n +:+ ".j2") = n.
Proof. apply (slice_app n ".j2"). Qed.

Lemma marked_inv m : marked m → m = unmarked m +:+ ".j2".
Proof. intros [t ->]%endswith_spec. by rewrite unmarked_app. Qed.

Lemma marked_nonempty m : marked m → m ≠ "".
Proof. by intros H ->. Qed.

Lemma unmarked_ne m : marked m → unmarked m ≠ m.
Proof.
  intros [t ->]%endswith_spec. rewrite unmarked_app. intros H.
  apply (f_equal (λ s, length (Str.chars s))) in H.
  rewrite chars_app, length_app in H. simpl in H. lia.
Qed.

Lemma app_j2_inj n n' : n +:+ ".j2" = n' +:+ ".j2" → n = n'.
Proof. intros H. by rewrite <- (unmarked_app n), H, unmarked_app. Qed.
End Marker.

(** ** The calls into [os], on an entry of a directory *)
Section AtChild.
Implicit Types (w : world) (dd : path) (d : gmap string node).

Lemma stat_child dd d x w :
  stat dd w = Some (Dir d) →
  stat (os_path_join dd x) w = if decide (x = "") then Some (Dir d) else d !! x.
Proof.
  unfold stat, os_path_join. intros H. by rewrite resolve_child, H.
Qed.

Lemma stat_graft dd d d' w t :
  stat dd w = Some (Dir d) →
  stat dd {| files := graft (norm dd) d' (files w); trace := t |} = Some (Dir d').
Proof.
  unfold stat. simpl. intros H. apply resolve_norm_dir.
  eapply graft_resolve; [apply norm_Forall|]. by apply resolve_norm.
Qed.

Lemma write_text_child dd d x text w :
  stat dd w = Some (Dir d) → x ≠ "" →
  write_text (os_path_join dd x) text w =
    match d !! x with
    | Some (Dir _) => Raised IsADirectoryError w
    | _ => Done (with_files (graft (norm dd) (<[x := File text]> d) (files w)) w)
    end.
Proof.
  intros H Hx. unfold write_text. rewrite (stat_child _ _ _ _ H), decide_False by done.
  assert (resolve (norm dd) (Dir (files w)) = Some (Dir d)) as Hn
    by by apply resolve_norm.
  assert (place false (norm (os_path_join dd x)) (File text) (files w)
          = Some (graft (norm dd) (<[x := File text]> d) (files w))) as Hp.
  { unfold os_path_join. rewrite norm_snoc by done.
    rewrite (place_child _ _ _ _ _ d (norm_Forall dd) Hn). unfold graft.
    by destruct (place_defined (norm dd) d (<[x:=File text]> d) (files w)
                   (norm_Forall dd) Hn) as [es' ->]. }
  assert (last (os_path_join dd x) ≠ Some "") as Hl.
  { unfold os_path_join. rewrite last_snoc. congruence. }
  destruct (d !! x) as [[c|s]|]; [|done|];
    (rewrite decide_False by done; by rewrite Hp).
Qed.

Lemma write_text_empty dd d text w :
  stat dd w = Some (Dir d) →
  write_text (os_path_join dd "") text w = Raised IsADirectoryError w.
Proof.
  intros H. unfold write_text. by rewrite (stat_child _ _ _ _ H), decide_True.
Qed.

Lemma os_remove_child dd d x c w :
  stat dd w = Some (Dir d) → x ≠ "" → d !! x = Some (File c) →
  os_remove (os_path_join dd x) w =
    Done (with_files (graft (norm dd) (delete x d) (files w)) w).
Proof.
  intros H Hx Hc. unfold os_remove.
  rewrite (stat_child _ _ _ _ H), decide_False, Hc by done.
  assert (resolve (norm dd) (Dir (files w)) = Some (Dir d)) as Hn
    by by apply resolve_norm.
  unfold os_path_join. rewrite norm_snoc by done.
  rewrite (unlink_child _ _ _ d (norm_Forall dd) Hn). unfold graft.
  by destruct (place_defined (norm dd) d (delete x d) (files w)
                 (norm_Forall dd) Hn) as [es' ->].
Qed.
End AtChild.

(** ** [render_template], by cases *)
Section Render.
Variable jinja_render :
  Environment → gmap string node → string → gmap string json → option string.

Lemma render_template_at dd d n f ctx w :
  stat dd w = Some (Dir d) → n ≠ "" →
  render_template jinja_render dd n f ctx w =
    match d !! n with
    | None => Done w
    | Some (Dir _) => Raised TemplateNotFound (emit (Rendered dd n ctx) w)
    | Some (File source) =>
        match jinja_render (env_of dd) (files w) source ctx with
        | None => Raised TemplateError (emit (Rendered dd n ctx) w)
        | Some out =>
            if decide (f = "")
            then Raised IsADirectoryError (emit (Rendered dd n ctx) w)
            else
              match d !! f with
              | Some (Dir _) =>
                  Raised IsADirectoryError (emit (Rendered dd n ctx) w)
              | _ =>
                  Done (with_files
                          (graft (norm dd) (delete n (<[f := File out]> d)) (files w))
                          (emit (Rendered dd n ctx) w))
              end
        end
    end.
Proof.
  intros H Hn. unfold render_template, os_path_exists, get_template_render.
  rewrite (stat_child _ _ _ _ H), decide_False by done.
  set (w1 := emit (Rendered dd n ctx) w).
  assert (stat dd w1 = Some (Dir d)) as H1 by done.
  destruct (d !! n) as [[source|sub]|] eqn:Edn; simpl; [| |done].
  2:{ by rewrite (stat_child _ _ _ _ H1), decide_False, Edn by done. }
  rewrite (stat_child _ _ _ _ H1), decide_False, Edn by done.
  change (files w1) with (files w).
  destruct (jinja_render _ (files w) source ctx) as [out|]; [|done].
  destruct (decide (f = "")) as [->|Hf].
  { by rewrite (write_text_empty _ _ _ _ H1). }
  rewrite (write_text_child _ _ _ _ _ H1 Hf).
  destruct (d !! f) as [[c|s]|] eqn:Edf; [|done|].
  - cbn [and_then].
    set (d1 := <[f:=File out]> d).
    set (w2 := with_files (graft (norm dd) d1 (files w1)) w1).
    assert (stat dd w2 = Some (Dir d1)) as H2 by by eapply stat_graft.
    assert (∃ c', d1 !! n = Some (File c')) as [c' Hc'].
    { unfold d1. destruct (decide (f = n)) as [->|Hne].
      - rewrite lookup_insert_eq. eauto.
      - rewrite lookup_insert_ne by done. eauto. }
    rewrite (os_remove_child _ _ _ _ _ H2 Hn Hc'). f_equal.
    unfold with_files, w2. simpl. f_equal.
    eapply graft_graft; [apply norm_Forall|]. apply resolve_norm, H.
  - cbn [and_then].
    set (d1 := <[f:=File out]> d).
    set (w2 := with_files (graft (norm dd) d1 (files w1)) w1).
    assert (stat dd w2 = Some (Dir d1)) as H2 by by eapply stat_graft.
    assert (∃ c', d1 !! n = Some (File c')) as [c' Hc'].
    { unfold d1. destruct (decide (f = n)) as [->|Hne].
      - rewrite lookup_insert_eq. eauto.
      - rewrite lookup_insert_ne by done. eauto. }
    rewrite (os_remove_child _ _ _ _ _ H2 Hn Hc'). f_equal.
    unfold with_files, w2. simpl. f_equal.
    eapply graft_graft; [apply norm_Forall|]. apply resolve_norm, H.
Qed.
End Render.

(** ** The loop over the marked names *)
Section Loop.
Variable jinja_render :
  Environment → gmap string node → string → gmap string json → option string.
Variables (dd : path) (ctx : gmap string json).

Lemma apart_cons m l : apart (m :: l) → apart l.
Proof.
  intros H m' Hm' Hk [H1 H2]. apply (H m'); [by right|done|].
  split; [done|by right].
Qed.

Lemma render_marked_done l : ∀ w d w',
  stat dd w = Some (Dir d) → NoDup l → apart l →
  render_marked jinja_render dd l ctx w = Done w' →
  ∃ d', stat dd w' = Some (Dir d') ∧
        files w' = graft (norm dd) d' (files w) ∧
        ∀ n, entry_after jinja_render dd ctx l d n (d' !! n).
Proof.
  induction l as [|m l IH]; intros w d w' Hst Hnd Hap Hrun.
  - simpl in Hrun. injection Hrun as <-. exists d. split; [done|]. split.
    + symmetry. eapply graft_same; [apply norm_Forall|]. by apply resolve_norm.
    + intros n. right. split; [by intros [?%elem_of_nil _]|].
      rewrite decide_False; [done|]. by intros [_ ?%elem_of_nil].
  - apply NoDup_cons in Hnd as [Hml Hnd].
    pose proof (apart_cons _ _ Hap) as Hap'.
    cbn [render_marked] in Hrun.
    destruct (Str.endswith m ".j2") eqn:Hm.
    + (* a marked name *)
      pose proof (marked_nonempty _ Hm) as Hm0.
      rewrite (render_template_at _ _ _ _ _ _ _ Hst Hm0) in Hrun.
      destruct (d !! m) as [[source|sub]|] eqn:Edm; [| done |].
      * destruct (jinja_render _ (files w) source ctx) as [out|] eqn:Ej; [|done].
        destruct (decide (unmarked m = "")) as [|Hf]; [done|].
        set (f := unmarked m) in *.
        assert (∀ s, d !! f ≠ Some (Dir s)) as Hnodir.
        { intros s Hs. by rewrite Hs in Hrun. }
        set (d1 := delete m (<[f:=File out]> d)) in *.
        set (w1 := with_files (graft (norm dd) d1 (files w))
                     (emit (Rendered dd m ctx) w)) in *.
        assert (render_marked jinja_render dd l ctx w1 = Done w') as Hrun'.
        { by destruct (d !! f) as [[?|?]|]. }
        assert (stat dd w1 = Some (Dir d1)) as Hst1 by by eapply stat_graft.
        destruct (IH w1 d1 w' Hst1 Hnd Hap' Hrun') as (d' & Hst' & Hfiles & Hent).
        assert (f ≠ m) as Hfm by by apply unmarked_ne.
        assert (m = f +:+ ".j2") as Hmf by by apply marked_inv.
        assert (¬ (marked f ∧ f ∈ l)) as Hfl.
        { intros [H1 H2]. apply (Hap m); [by left|done|]. split; [done|by right]. }
        exists d'. split; [done|]. split.
        { rewrite Hfiles. unfold w1. simpl.
          eapply graft_graft; [apply norm_Forall|]. by apply resolve_norm. }
        intros n. destruct (decide (n = f)) as [->|Hnf].
        -- left. split; [rewrite <- Hmf; by left|].
           exists source, out. rewrite <- Hmf. split; [done|].
           split; [by exists (files w)|]. split; [|done].
           destruct (Hent f) as [[Hin _]|[_ Hr]].
           ++ rewrite <- Hmf in Hin. done.
           ++ rewrite decide_False in Hr by done. rewrite Hr. unfold d1.
              rewrite lookup_delete_ne, lookup_insert_eq by done. done.
        -- assert (n +:+ ".j2" ≠ m) as Hnm.
           { intros H. apply Hnf. rewrite Hmf in H. by apply app_j2_inj in H. }
           assert (n +:+ ".j2" ∈ l → d1 !! (n +:+ ".j2") = d !! (n +:+ ".j2")) as Hsame.
           { intros Hin. unfold d1. rewrite lookup_delete_ne by done.
             rewrite lookup_insert_ne; [done|].
             intros Heq. apply Hfl. rewrite Heq. split; [apply marked_app|done]. }
           destruct (Hent n) as [(Hin & source' & out' & Hd1 & Hren & Hr & Hn0 & Hnd1)|[Hno Hr]].
           ++ left. split; [by right|]. exists source', out'.
              rewrite <- (Hsame Hin). split; [done|]. split; [done|].
              split; [done|]. split; [done|].
              intros s Hs. destruct (decide (n = m)) as [->|Hne]; [congruence|].
              apply (Hnd1 s). unfold d1.
              rewrite lookup_delete_ne, lookup_insert_ne by done. done.
           ++ right. split.
              { intros [Hin Hsome]. apply elem_of_cons in Hin as [Hin|Hin]; [done|].
                apply Hno. split; [done|]. by rewrite (Hsame Hin). }
              destruct (decide (n = m)) as [->|Hne].
              ** rewrite decide_True by (split; [done|by left]).
                 rewrite decide_False in Hr by (intros [_ ?]; done).
                 rewrite Hr. unfold d1. by rewrite lookup_delete_eq.
              ** destruct (decide (marked n ∧ n ∈ l)) as [[H1 H2]|Hnot].
                 --- rewrite decide_True by (split; [done|by right]). done.
                 --- rewrite decide_False.
                     2:{ intros [H1 H2]. apply Hnot. split; [done|].
                         by apply elem_of_cons in H2 as [H2|H2]. }
                     rewrite Hr. unfold d1.
                     rewrite lookup_delete_ne, lookup_insert_ne by done. done.
      * (* the name is gone: skipped silently *)
        cbn [and_then] in Hrun.
        destruct (IH w d w' Hst Hnd Hap' Hrun) as (d' & Hst' & Hfiles & Hent).
        exists d'. split; [done|]. split; [done|].
        intros n. destruct (Hent n) as [(Hin & Hrest)|[Hno Hr]].
        -- left. split; [by right|done].
        -- right. split.
           { intros [Hin Hsome]. apply elem_of_cons in Hin as [Hin|Hin].
             - rewrite Hin, Edm in Hsome. by destruct Hsome.
             - apply Hno. done. }
           destruct (decide (n = m)) as [->|Hne].
           ** rewrite decide_True by (split; [done|by left]).
              rewrite decide_False in Hr by (intros [_ ?]; done). congruence.
           ** destruct (decide (marked n ∧ n ∈ l)) as [[H1 H2]|Hnot].
              --- rewrite decide_True by (split; [done|by right]). done.
              --- rewrite decide_False; [done|].
                  intros [H1 H2]. apply Hnot. split; [done|].
                  by apply elem_of_cons in H2 as [H2|H2].
    + (* not a marked name *)
      destruct (IH w d w' Hst Hnd Hap' Hrun) as (d' & Hst' & Hfiles & Hent).
      exists d'. split; [done|]. split; [done|].
      assert (∀ n, n +:+ ".j2" ≠ m) as Hnm.
      { intros n <-. by rewrite marked_app in Hm. }
      intros n. destruct (Hent n) as [(Hin & Hrest)|[Hno Hr]].
      * left. split; [by right|done].
      * right. split.
        { intros [Hin Hsome]. apply elem_of_cons in Hin as [Hin|Hin].
          - by apply Hnm in Hin.
          - by apply Hno. }
        destruct (decide (marked n ∧ n ∈ l)) as [[H1 H2]|Hnot].
        -- rewrite decide_True by (split; [done|by right]). done.
        -- rewrite decide_False; [done|].
           intros [H1 H2]. apply Hnot. split; [done|].
           apply elem_of_cons in H2 as [->|H2]; [congruence|done].
Qed.
End Loop.

(** ** What the loop leaves alone, and when it goes through *)
Section LoopFrame.
Variable jinja_render :
  Environment → gmap string node → string → gmap string json → option string.
Variables (dd : path) (ctx : gmap string json).

(** What the loop does not touch *)
Lemma render_marked_frame l n : ∀ w d,
  stat dd w = Some (Dir d) →
  (∀ m, m ∈ l → marked m → m ≠ n ∧ unmarked m ≠ n) →
  ∃ d', stat dd (final (render_marked jinja_render dd l ctx w)) = Some (Dir d') ∧
        d' !! n = d !! n.
Proof.
  induction l as [|m l IH]; intros w d Hst Hl.
  - exists d. done.
  - assert (∀ m', m' ∈ l → marked m' → m' ≠ n ∧ unmarked m' ≠ n) as Hl'.
    { intros m' Hm'. apply Hl. by right. }
    cbn [render_marked]. destruct (Str.endswith m ".j2") eqn:Hm; [|by apply IH].
    destruct (Hl m) as [Hmn Hfn]; [by left|done|].
    rewrite (render_template_at _ _ _ _ _ _ _ Hst (marked_nonempty _ Hm)).
    destruct (d !! m) as [[source|sub]|] eqn:Edm.
    + destruct (jinja_render _ (files w) source ctx) as [out|]; [|by exists d].
      destruct (decide (unmarked m = "")); [by exists d|].
      set (d1 := delete m (<[unmarked m:=File out]> d)).
      set (w1 := with_files (graft (norm dd) d1 (files w))
                   (emit (Rendered dd m ctx) w)).
      assert (stat dd w1 = Some (Dir d1)) as Hst1 by by eapply stat_graft.
      destruct (IH w1 d1 Hst1 Hl') as (d' & Hd' & Hn).
      assert (d1 !! n = d !! n) as Hd1.
      { unfold d1. by rewrite lookup_delete_ne, lookup_insert_ne. }
      destruct (d !! unmarked m) as [[?|?]|]; cbn [and_then final];
        [exists d'; by rewrite Hn | by exists d | exists d'; by rewrite Hn].
    + by exists d.
    + cbn [and_then]. by apply IH.
Qed.

(** When the loop goes through.  Here the renderer may not depend on the
    files it can see. *)
Hypothesis jinja_local : ∀ env es es' source vars,
  jinja_render env es source vars = jinja_render env es' source vars.

Lemma render_marked_runs l : ∀ w d,
  stat dd w = Some (Dir d) → NoDup l → apart l →
  (∀ m t, m ∈ l → marked m → d !! m = Some t →
     ∃ source out, t = File source ∧ renders jinja_render dd ctx source out ∧
       unmarked m ≠ "" ∧ ∀ s, d !! unmarked m ≠ Some (Dir s)) →
  ∃ w', render_marked jinja_render dd l ctx w = Done w'.
Proof.
  induction l as [|m l IH]; intros w d Hst Hnd Hap Hok.
  - by exists w.
  - apply NoDup_cons in Hnd as [Hml Hnd].
    pose proof (apart_cons _ _ Hap) as Hap'.
    assert (∀ m' t, m' ∈ l → marked m' → d !! m' = Some t →
      ∃ source out, t = File source ∧ renders jinja_render dd ctx source out ∧
        unmarked m' ≠ "" ∧ ∀ s, d !! unmarked m' ≠ Some (Dir s)) as Hok'.
    { intros m' t Hm'. apply Hok. by right. }
    cbn [render_marked]. destruct (Str.endswith m ".j2") eqn:Hm; [|by apply (IH w d)].
    rewrite (render_template_at _ _ _ _ _ _ _ Hst (marked_nonempty _ Hm)).
    destruct (d !! m) as [t|] eqn:Edm; [|by apply (IH w d)].
    destruct (Hok m t) as (source & out & -> & [es Hren] & Hf & Hnodir);
      [by left|done|done|].
    rewrite (jinja_local _ (files w) es), Hren, decide_False by done.
    set (f := unmarked m) in *.
    set (d1 := delete m (<[f:=File out]> d)).
    set (w1 := with_files (graft (norm dd) d1 (files w))
                 (emit (Rendered dd m ctx) w)).
    assert (stat dd w1 = Some (Dir d1)) as Hst1 by by eapply stat_graft.
    assert (f ≠ m) as Hfm by by apply unmarked_ne.
    assert (¬ (marked f ∧ f ∈ l)) as Hfl.
    { intros [H1 H2]. apply (Hap m); [by left|done|]. split; [done|by right]. }
    assert (∃ w', render_marked jinja_render dd l ctx w1 = Done w') as Hgoal.
    { apply (IH w1 d1 Hst1 Hnd Hap'). intros m' t Hm' Hk Ht.
      assert (m' ≠ m) as Hne by (intros ->; done).
      assert (m' ≠ f) as Hne' by (intros ->; apply Hfl; done).
      unfold d1 in Ht. rewrite lookup_delete_ne, lookup_insert_ne in Ht by done.
      destruct (Hok' m' t Hm' Hk Ht) as (source' & out' & -> & Hren' & Hf' & Hnd').
      exists source', out'. split; [done|]. split; [done|]. split; [done|].
      intros s. unfold d1.
      destruct (decide (unmarked m' = m)) as [->|H1]; [by rewrite lookup_delete_eq|].
      rewrite lookup_delete_ne by done.
      destruct (decide (unmarked m' = f)) as [->|H2]; [by rewrite lookup_insert_eq|].
      rewrite lookup_insert_ne by done. apply Hnd'. }
    destruct (d !! f) as [[?|s]|] eqn:Edf; [done| |done].
    by destruct (Hnodir s).
Qed.
End LoopFrame.

(** ** The names of a directory, in any order *)
Section Listing.
Variable listing : list string → list string.
Hypothesis listing_perm : ∀ l, listing l ≡ₚ l.

Lemma listing_NoDup (d : gmap string node) : NoDup (listing (map_to_list d).*1).
Proof. rewrite listing_perm. apply NoDup_fst_map_to_list. Qed.

Lemma listing_elem (d : gmap string node) n :
  n ∈ listing (map_to_list d).*1 ↔ is_Some (d !! n).
Proof.
  rewrite listing_perm, list_elem_of_fmap. split.
  - intros [[k v] [-> Hin%elem_of_map_to_list]]. by exists v.
  - intros [v Hv]. exists (n, v). split; [done|]. by apply elem_of_map_to_list.
Qed.
End Listing.

(** ** [copy_tree], name by name *)
Section Copy.
Implicit Types (es d : gmap string node).

Lemma size_child es k c : es !! k = Some c → size_node c < size_node (Dir es).
Proof.
  intros H. cbn [size_node].
  rewrite (map_fold_delete_L _ _ k c es); [lia| |done].
  intros. lia.
Qed.

Lemma node_induction (P : node → Prop) :
  (∀ data, P (File data)) →
  (∀ es, (∀ k c, es !! k = Some c → P c) → P (Dir es)) →
  ∀ s, P s.
Proof.
  intros HF HD.
  assert (∀ n s, size_node s < n → P s) as H.
  { induction n as [|n IH]; intros s Hs; [lia|].
    destruct s as [data|es]; [apply HF|]. apply HD. intros k c Hk.
    apply IH. pose proof (size_child _ _ _ Hk). lia. }
  intros s. apply (H (S (size_node s))). lia.
Qed.

Lemma copy_step_entry n c d :
  copy_step copy_into n c d =
    (partial_alter (λ _, (copy_entry n (Some c) (d !! n)).1) n d,
     (copy_entry n (Some c) (d !! n)).2).
Proof.
  unfold copy_step, copy_entry.
  destruct (Str.startswith n ".nfs");
    [cbn [fst snd]; by rewrite partial_alter_self|].
  destruct c as [data|es].
  - destruct (d !! n) as [[?|sub]|] eqn:Edn; [done| |done].
    destruct (sub !! n) as [[?|?]|]; [done| |done].
    cbn [fst snd]. by rewrite <- Edn, partial_alter_self.
  - destruct (d !! n) as [[?|sub]|] eqn:Edn.
    + cbn [fst snd]. by rewrite <- Edn, partial_alter_self.
    + by destruct (copy_into (Dir es) sub).
    + by destruct (copy_into (Dir es) ∅).
Qed.

Lemma copy_into_entries es : ∀ d,
  ((copy_into (Dir es) d).2 = true →
     ∀ k, copy_entry k (es !! k) (d !! k) = ((copy_into (Dir es) d).1 !! k, true))
  ∧ ((∀ k, (copy_entry k (es !! k) (d !! k)).2 = true) →
     (copy_into (Dir es) d).2 = true).
Proof.
  cbn [copy_into].
  induction es as [|i x m Hi Hfirst IH] using map_first_key_ind; intros d.
  - rewrite map_fold_empty. split; [|done].
    intros _ k. by rewrite lookup_empty.
  - rewrite map_fold_insert_first_key by done.
    destruct (IH d) as [IH1 IH2].
    destruct (map_fold _ (d, true) m) as [d0 ok0] eqn:Efold.
    cbn [fst snd] in *.
    split.
    + destruct ok0; [|done]. rewrite copy_step_entry. cbn [fst snd].
      intros Hok k. specialize (IH1 eq_refl).
      assert (d0 !! i = d !! i) as Hd0.
      { specialize (IH1 i). rewrite Hi in IH1. cbn [copy_entry] in IH1. congruence. }
      rewrite lookup_partial_alter. destruct (decide (i = k)) as [->|Hne].
      * rewrite lookup_insert_eq. rewrite Hd0 in *.
        destruct (copy_entry k (Some x) (d !! k)) as [e ok'].
        cbn [fst snd] in *. congruence.
      * rewrite lookup_insert_ne by done. apply IH1.
    + intros Hall.
      assert (ok0 = true) as ->.
      { apply IH2. intros k. specialize (Hall k).
        destruct (decide (i = k)) as [->|Hne].
        - by rewrite Hi.
        - by rewrite lookup_insert_ne in Hall. }
      rewrite copy_step_entry. cbn [fst snd].
      specialize (IH1 eq_refl i). rewrite Hi in IH1. cbn [copy_entry] in IH1.
      specialize (Hall i). rewrite lookup_insert_eq in Hall.
      congruence.
Qed.

Lemma copy_into_lookup es d d' k :
  copy_into (Dir es) d = (d', true) →
  copy_entry k (es !! k) (d !! k) = (d' !! k, true).
Proof.
  intros H. destruct (copy_into_entries es d) as [H1 _].
  rewrite H in H1. by apply H1.
Qed.

Lemma copy_into_ok es d :
  (∀ k, (copy_entry k (es !! k) (d !! k)).2 = true) →
  ∃ d', copy_into (Dir es) d = (d', true).
Proof.
  intros H. destruct (copy_into_entries es d) as [_ H2].
  specialize (H2 H). destruct (copy_into (Dir es) d) as [d' ok].
  simpl in H2. subst. by exists d'.
Qed.

(** Copying once more changes nothing. *)
Lemma copy_into_again s : ∀ d d',
  copy_into s d = (d', true) → copy_into s d' = (d', true).
Proof.
  induction s as [data|es IH] using node_induction; intros d d' H; [done|].
  assert (∀ k, copy_entry k (es !! k) (d' !! k) = (d' !! k, true)) as Hk.
  { intros k. pose proof (copy_into_lookup _ _ _ k H) as Hc.
    unfold copy_entry in *.
    destruct (es !! k) as [c|] eqn:Ek; [|done].
    destruct (Str.startswith k ".nfs"); [done|].
    destruct c as [data|es'].
    - destruct (d !! k) as [[?|sub]|].
      + injection Hc as Hc. by rewrite <- Hc.
      + destruct (sub !! k) as [[?|?]|]; [|done|];
          injection Hc as Hc; rewrite <- Hc;
          by rewrite lookup_insert_eq, insert_insert_eq.
      + injection Hc as Hc. by rewrite <- Hc.
    - destruct (d !! k) as [[?|sub]|]; [done| |].
      + destruct (copy_into (Dir es') sub) as [sub' ok] eqn:Es.
        injection Hc as Hc ->. rewrite <- Hc. by rewrite (IH _ _ Ek _ _ Es).
      + destruct (copy_into (Dir es') ∅) as [sub' ok] eqn:Es.
        injection Hc as Hc ->. rewrite <- Hc. by rewrite (IH _ _ Ek _ _ Es). }
  destruct (copy_into_ok es d') as [d'' Hd''].
  { intros k. by rewrite Hk. }
  rewrite Hd''. f_equal. apply map_eq. intros k.
  pose proof (copy_into_lookup _ _ _ k Hd'') as Hc. rewrite Hk in Hc. congruence.
Qed.

(** Copying into a directory that is empty. *)
Lemma copy_into_empty_lookup es d' k :
  copy_into (Dir es) ∅ = (d', true) →
  d' !! k =
    match es !! k with
    | None => None
    | Some c =>
        if Str.startswith k ".nfs" then None
        else
          match c with
          | File data => Some (File data)
          | Dir _ => Some (Dir (copy_into c ∅).1)
          end
    end
  ∧ (∀ sub, es !! k = Some (Dir sub) → Str.startswith k ".nfs" = false →
       (copy_into (Dir sub) ∅).2 = true).
Proof.
  intros H. pose proof (copy_into_lookup _ _ _ k H) as Hc.
  rewrite lookup_empty in Hc. unfold copy_entry in Hc.
  destruct (es !! k) as [c|].
  2:{ injection Hc as Hc. by rewrite <- Hc. }
  destruct (Str.startswith k ".nfs").
  { injection Hc as Hc. rewrite <- Hc. split; [done|]. intros; done. }
  destruct c as [data|sub].
  { injection Hc as Hc. rewrite <- Hc. split; [done|]. intros; done. }
  destruct (copy_into (Dir sub) ∅) as [sub' ok] eqn:Es.
  injection Hc as Hc ->. rewrite <- Hc. split; [done|].
  intros ? [= <-] _. by rewrite Es.
Qed.
End Copy.


(** ** The regular files of a copy *)
Section CopiedFiles.
Implicit Types (S C es : gmap string node).




(** What a copy into an empty directory leaves under one name *)
Lemma copied_file S C k data :
  copy_into (Dir S) ∅ = (C, true) →
  C !! k = Some (File data) ↔
  S !! k = Some (File data) ∧ Str.startswith k ".nfs" = false.
Proof.
  intros H. destruct (copy_into_empty_lookup _ _ k H) as [-> _].
  destruct (S !! k) as [[?|?]|]; destruct (Str.startswith k ".nfs");
    split; try done; try (by intros [? ?]); by intros [= ->].
Qed.

Lemma copied_dir S C k sub :
  copy_into (Dir S) ∅ = (C, true) →
  C !! k = Some (Dir sub) ↔
  ∃ s, S !! k = Some (Dir s) ∧ Str.startswith k ".nfs" = false ∧
       copy_into (Dir s) ∅ = (sub, true).
Proof.
  intros H. destruct (copy_into_empty_lookup _ _ k H) as [-> Hok].
  destruct (S !! k) as [[data|s]|] eqn:ES.
  - split; [by destruct (Str.startswith k ".nfs")|].
    by intros (s & ? & _).
  - destruct (Str.startswith k ".nfs") eqn:E.
    { split; [done|]. by intros (s' & _ & ? & _). }
    specialize (Hok s eq_refl eq_refl).
    destruct (copy_into (Dir s) ∅) as [sub' ok] eqn:Es.
    cbn [fst snd] in *. subst ok. split.
    + intros [= <-]. by exists s.
    + intros (s' & [= <-] & _ & Hc). rewrite Es in Hc. by injection Hc as ->.
  - split; [done|]. by intros (s & ? & _).
Qed.

Lemma copied_none S C k :
  copy_into (Dir S) ∅ = (C, true) →
  C !! k = None ↔ S !! k = None ∨ Str.startswith k ".nfs" = true.
Proof.
  intros H. destruct (copy_into_empty_lookup _ _ k H) as [-> _].
  destruct (S !! k) as [[?|?]|]; destruct (Str.startswith k ".nfs");
    split; try done; try (by left); try (by right); by intros [?|?].
Qed.




End CopiedFiles.

(** ** The conditions on names, by computation *)
Section Checks.
Implicit Types (d : gmap string node).

Lemma keys_elem d m : is_Some (d !! m) → m ∈ (map_to_list d).*1.
Proof.
  intros [v Hv]. apply list_elem_of_fmap. exists (m, v).
  split; [done|]. by apply elem_of_map_to_list.
Qed.

Lemma no_marked_pair_check d : no_marked_pair_b d = true → no_marked_pair d.
Proof.
  unfold no_marked_pair_b. rewrite forallb_forall.
  intros H m Hm Hk Hk'.
  specialize (H m (proj1 (list_elem_of_In _ _) (keys_elem _ _ Hm))).
  rewrite Hk, Hk' in H. cbn in H.
  destruct (d !! unmarked m) eqn:E; [|done].
  rewrite bool_decide_true in H by eauto. done.
Qed.

Lemma no_twice_marked_check d : no_twice_marked_b d = true → no_twice_marked d.
Proof.
  unfold no_twice_marked_b. rewrite forallb_forall.
  intros H m Hm Hk.
  specialize (H m (proj1 (list_elem_of_In _ _) (keys_elem _ _ Hm))).
  rewrite Hk in H. by destruct (Str.endswith (unmarked m) ".j2").
Qed.
End Checks.


(** * The statements of the specification *)

Section Verification.
Variable jinja_render :
  Environment → gmap string node → string → gmap string json → option string.
Variable listing : list string → list string.
Hypothesis listing_perm : ∀ l, listing l ≡ₚ l.

Implicit Types (w : world) (dd : path) (d : gmap string node).

(** *** [render_template] *)

Lemma exists_child dd n w :
  os_path_exists (os_path_join dd n) w = true →
  ∃ d, stat dd w = Some (Dir d).
Proof.
  unfold os_path_exists, stat, os_path_join. rewrite resolve_child.
  destruct (resolve dd (Dir (files w))) as [[c|d]|]; [done| |done].
  by exists d.
Qed.

(** C4: when no entry of the given template name exists in the destination
    directory, [render_template] returns at once and the world is as
    before: no error, no file written, nothing deleted. *)
Theorem render_template_missing dest_dir template_name file_name input_json w :
  os_path_exists (os_path_join dest_dir template_name) w = false →
  render_template jinja_render dest_dir template_name file_name input_json w
  = Done w.
Proof. intros H. unfold render_template. by rewrite H. Qed.

Lemma render_template_raised_world dest_dir template_name file_name input_json
    w e w' :
  render_template jinja_render dest_dir template_name file_name input_json w
  = Raised e w' →
  w' = emit (Rendered dest_dir template_name input_json) w
  ∧ os_path_exists (os_path_join dest_dir template_name) w = true.
Proof.
  intros Hr.
  destruct (os_path_exists (os_path_join dest_dir template_name) w) eqn:Hex.
  2:{ unfold render_template in Hr. by rewrite Hex in Hr. }
  split; [|done].
  destruct (exists_child _ _ _ Hex) as [d Hd].
  destruct (decide (template_name = "")) as [->|Hn].
  - unfold render_template, get_template_render in Hr. rewrite Hex in Hr.
    cbn [negb loader] in Hr.
    assert (stat dest_dir (emit (Rendered dest_dir "" input_json) w)
            = Some (Dir d)) as Hd' by done.
    rewrite (stat_child _ _ _ _ Hd'), decide_True in Hr by done. congruence.
  - rewrite (render_template_at _ _ _ _ _ _ _ Hd Hn) in Hr.
    destruct (d !! template_name) as [[source|sub]|]; [|congruence|done].
    destruct (jinja_render _ _ source input_json); [|congruence].
    destruct (decide (file_name = "")); [congruence|].
    destruct (d !! file_name) as [[?|?]|]; congruence.
Qed.

(** C9: when [render_template] ends with an exception (from loading the
    template, from rendering it or from writing the output), no file has
    changed: the marked file is still in the destination directory and has
    not been deleted. *)
Theorem render_template_raised dest_dir template_name file_name input_json
    w e w' :
  render_template jinja_render dest_dir template_name file_name input_json w
  = Raised e w' →
  files w' = files w
  ∧ os_path_exists (os_path_join dest_dir template_name) w' = true
  ∧ stat (os_path_join dest_dir template_name) w'
    = stat (os_path_join dest_dir template_name) w.
Proof.
  intros [-> Hex]%render_template_raised_world. done.
Qed.



(** *** Traces and exits *)

Lemma extends_here config w o : final o = w → extends config w o.
Proof. intros <-. exists []. by rewrite app_nil_r. Qed.

Lemma extends_trans config w w1 o :
  extends config w (Done w1) → extends config w1 o → extends config w o.
Proof.
  intros (e1 & H1 & L1 & C1) (e2 & H2 & L2 & C2). exists (e1 ++ e2).
  simpl in H1. rewrite H2, H1, (assoc_L (++)). split; [done|].
  unfold loads, contexts in *. rewrite !omap_app, L1, L2. split; [done|].
  by apply Forall_app.
Qed.

Lemma extends_and_then config w o k :
  extends config w o → (∀ w1, extends config w1 (k w1)) →
  extends config w (and_then o k).
Proof.
  intros Ho Hk. destruct o as [w1|c w1|e w1]; [|done|done].
  by apply (extends_trans _ _ w1).
Qed.

Lemma extends_print config w m o :
  extends config (emit (Printed m) w) o → extends config w o.
Proof.
  intros (evs & H & L & C). exists (Printed m :: evs).
  simpl in H. rewrite H, <- (assoc_L (++)). done.
Qed.

Lemma extends_rendered config w dd n o :
  extends config (emit (Rendered dd n config) w) o → extends config w o.
Proof.
  intros (evs & H & L & C). exists (Rendered dd n config :: evs).
  simpl in H. rewrite H, <- (assoc_L (++)). split; [done|]. split; [done|].
  unfold contexts. simpl. by constructor.
Qed.

Lemma write_text_final p text w :
  trace (final (write_text p text w)) = trace w ∧ no_exit (write_text p text w).
Proof.
  unfold write_text. destruct (stat p w) as [[?|?]|]; try done;
    (destruct (decide (last p = Some "")); [done|]);
    by destruct (place false (norm p) (File text) (files w)).
Qed.

Lemma os_remove_final p w :
  trace (final (os_remove p w)) = trace w ∧ no_exit (os_remove p w).
Proof.
  unfold os_remove. destruct (stat p w) as [[?|?]|]; try done.
  by destruct (unlink (norm p) (files w)).
Qed.

Lemma copy_tree_final src dst w :
  trace (final (copy_tree src dst w)) = trace w ∧ no_exit (copy_tree src dst w).
Proof.
  unfold copy_tree. destruct (stat src w) as [[?|s]|]; try done.
  destruct (stat dst w) as [[?|?]|]; try done;
    (destruct (copy_into _ _) as [d' ok];
     destruct (place true (norm dst) (Dir d') (files w)); [by destruct ok|done]).
Qed.

Lemma no_exit_and_then o k :
  no_exit o → (∀ w, no_exit (k w)) → no_exit (and_then o k).
Proof. destruct o; simpl; auto. Qed.

Lemma render_template_extends dd n f ctx w :
  extends ctx w (render_template jinja_render dd n f ctx w)
  ∧ no_exit (render_template jinja_render dd n f ctx w).
Proof.
  unfold render_template.
  destruct (os_path_exists (os_path_join dd n) w); cbn [negb].
  2:{ split; [by apply extends_here|done]. }
  set (w1 := emit (Rendered dd n ctx) w).
  destruct (get_template_render _ _ _ _ w1) as [e|text].
  { split; [|done]. apply (extends_rendered _ _ dd n). by apply extends_here. }
  pose proof (write_text_final (os_path_join dd f) text w1) as [Hw Hwx].
  destruct (write_text (os_path_join dd f) text w1) as [w2|c w2|e w2];
    [|done|].
  - cbn [and_then]. pose proof (os_remove_final (os_path_join dd n) w2) as [Hr Hrx].
    split; [|done]. apply (extends_rendered _ _ dd n). exists [].
    rewrite app_nil_r, Hr. done.
  - split; [|done]. apply (extends_rendered _ _ dd n). exists [].
    rewrite app_nil_r. done.
Qed.

Lemma render_marked_extends dd ctx l : ∀ w,
  extends ctx w (render_marked jinja_render dd l ctx w)
  ∧ no_exit (render_marked jinja_render dd l ctx w).
Proof.
  induction l as [|m l IH]; intros w; cbn [render_marked].
  - split; [by apply extends_here|done].
  - destruct (Str.endswith m ".j2"); [|apply IH].
    destruct (render_template_extends dd m (unmarked m) ctx w) as [H1 H2].
    split.
    + apply extends_and_then; [done|]. intros w1. apply IH.
    + apply no_exit_and_then; [done|]. intros w1. apply IH.
Qed.

Lemma deploy_app_extends opts w :
  extends (Opts.inputJSON opts) w (deploy_app jinja_render listing opts w).
Proof.
  unfold deploy_app.
  destruct (os_path_exists (Opts.srcDir opts) w); cbn [negb].
  2:{ eapply extends_print. by apply extends_here. }
  apply (extends_print _ _ (Copying (Opts.srcDir opts) (Opts.destDir opts))).
  set (w1 := emit _ w).
  pose proof (copy_tree_final (Opts.srcDir opts) (Opts.destDir opts) w1) as [Hc _].
  apply extends_and_then.
  { exists []. rewrite app_nil_r. split; [apply Hc|done]. }
  intros w2. destruct (os_listdir listing (Opts.destDir opts) w2) as [e|names].
  { by apply extends_here. }
  apply extends_and_then; [apply render_marked_extends|].
  intros w3. eapply extends_print. by apply extends_here.
Qed.

Lemma deploy_components_extends comps args config cwd : ∀ w,
  extends config w (deploy_components jinja_render listing comps args config cwd w).
Proof.
  induction comps as [|c comps IH]; intros w; cbn [deploy_components].
  - by apply extends_here.
  - destruct (os_path_join3 cwd (Args.template args) (Some c)) as [src|];
      [|by apply extends_here].
    destruct (os_path_join3 cwd (Args.destination args) (Some c)) as [dst|];
      [|by apply extends_here].
    apply extends_and_then; [|done].
    apply (deploy_app_extends
             {| Opts.inputJSON := config; Opts.cwd := cwd; Opts.srcDir := src;
                Opts.destDir := dst; Opts.app := c |}).
Qed.

(** C8: the input file is loaded once in a run, and every rendering of the
    run, for each application and in full-stack mode for each component,
    gets the mapping [json.load] returned, as it was loaded.  When the
    input cannot be loaded nothing is rendered.  The second part says the
    same of the loop over any list of components. *)
Theorem one_mapping_for_the_run :
  (∀ args docs fs,
     let t := trace (final (run jinja_render listing args docs fs)) in
     match Args.input args ≫= λ file, (file ,.) <$> docs !! file with
     | Some (file, fields) =>
         loads t = [file] ∧
         Forall (λ c, c = dict_update ∅ fields) (contexts t)
     | None => loads t = [] ∧ contexts t = []
     end)
  ∧ (∀ comps args config cwd w,
       extends config w
         (deploy_components jinja_render listing comps args config cwd w)).
Proof.
  split; [|intros; apply deploy_components_extends].
  intros args docs fs. cbv zeta. unfold run.
  destruct (Args.input args) as [file|]; [|done]. cbn [mbind option_bind].
  destruct (docs !! file) as [fields|]; [|done]. cbn [fmap option_fmap option_map].
  set (config := dict_update ∅ fields).
  set (w := emit (Loaded file) _).
  assert (extends config w
    (if Args.fullStack args
     then deploy_components jinja_render listing components args config [] w
     else
       match os_path_join3 [] (Args.template args) (Args.app args),
             os_path_join3 [] (Args.destination args) (Args.app args) with
       | Some src, Some dst =>
           match Args.app args with
           | Some name =>
               deploy_app jinja_render listing
                 {| Opts.inputJSON := config; Opts.cwd := []; Opts.srcDir := src;
                    Opts.destDir := dst; Opts.app := name |} w
           | None => Raised TypeError w
           end
       | _, _ => Raised TypeError w
       end)) as (evs & Ht & Hl & Hc).
  { destruct (Args.fullStack args); [apply deploy_components_extends|].
    destruct (os_path_join3 [] (Args.template args) (Args.app args));
      [|by apply extends_here].
    destruct (os_path_join3 [] (Args.destination args) (Args.app args));
      [|by apply extends_here].
    destruct (Args.app args); [|by apply extends_here].
    apply (deploy_app_extends
             {| Opts.inputJSON := config; Opts.cwd := []; Opts.srcDir := _;
                Opts.destDir := _; Opts.app := _ |}). }
  rewrite Ht. change (trace w) with [Printed (ShowArgs args); Loaded file].
  unfold loads, contexts in *. rewrite !omap_app, Hl. done.
Qed.

(** *** Exit codes *)

Lemma deploy_app_missing opts w :
  os_path_exists (Opts.srcDir opts) w = false →
  deploy_app jinja_render listing opts w
  = Exited 1 (emit (Printed (MissingSource (Opts.srcDir opts))) w).
Proof. intros H. unfold deploy_app. by rewrite H. Qed.

Lemma deploy_app_no_exit opts w :
  os_path_exists (Opts.srcDir opts) w = true →
  no_exit (deploy_app jinja_render listing opts w).
Proof.
  intros H. unfold deploy_app. rewrite H. cbn [negb].
  apply no_exit_and_then; [apply copy_tree_final|].
  intros w1. destruct (os_listdir listing (Opts.destDir opts) w1); [done|].
  apply no_exit_and_then; [apply render_marked_extends|done].
Qed.

Lemma run_single args docs fs file fields name src dst :
  Args.input args = Some file → docs !! file = Some fields →
  (if Args.fullStack args then Some "lambda" else Args.app args) = Some name →
  os_path_join3 [] (Args.template args) (Some name) = Some src →
  os_path_join3 [] (Args.destination args) (Some name) = Some dst →
  run jinja_render listing args docs fs
  = and_then
      (deploy_app jinja_render listing
         {| Opts.inputJSON := dict_update ∅ fields; Opts.cwd := [];
            Opts.srcDir := src; Opts.destDir := dst; Opts.app := name |}
         (emit (Loaded file)
            (emit (Printed (ShowArgs args)) {| files := fs; trace := [] |})))
      Done.
Proof.
  intros Hi Hd Hn Hs Ht. unfold run. rewrite Hi, Hd.
  destruct (Args.fullStack args).
  - injection Hn as <-. unfold components. cbn [deploy_components].
    by rewrite Hs, Ht.
  - rewrite Hn, Hs, Ht. by destruct (deploy_app _ _ _ _).
Qed.

(** C3, as amended: the script calls [exit(1)] exactly when the source
    directory it computed does not exist; it does so before any copy, so
    the files are as before.  When the source directory exists the run
    either reaches its end (status 0) or is ended by an exception that the
    copy or the rendering raised (status 1). *)
Theorem exit_when_source_missing args docs fs file fields name src dst :
  Args.input args = Some file → docs !! file = Some fields →
  (if Args.fullStack args then Some "lambda" else Args.app args) = Some name →
  os_path_join3 [] (Args.template args) (Some name) = Some src →
  os_path_join3 [] (Args.destination args) (Some name) = Some dst →
  let w0 := {| files := fs; trace := [] |} in
  let o := run jinja_render listing args docs fs in
  (os_path_exists src w0 = false →
     (∃ w', o = Exited 1 w') ∧ exit_status o = 1%Z ∧ files (final o) = fs)
  ∧ (os_path_exists src w0 = true →
       ((∃ w', o = Done w') ∧ exit_status o = 0%Z)
       ∨ ((∃ e w', o = Raised e w') ∧ exit_status o = 1%Z)).
Proof.
  intros Hi Hd Hn Hs Ht. cbv zeta.
  rewrite (run_single _ _ _ _ _ _ _ _ Hi Hd Hn Hs Ht).
  set (opts := {| Opts.inputJSON := _ |}). set (w := emit (Loaded file) _).
  assert (os_path_exists src w = os_path_exists src {| files := fs; trace := [] |})
    as <- by done.
  split; intros Hex.
  - rewrite (deploy_app_missing opts w Hex). cbn. eauto.
  - pose proof (deploy_app_no_exit opts w Hex) as Hne.
    destruct (deploy_app jinja_render listing opts w) as [w'|c w'|e w'];
      [left|done|right]; cbn; eauto.
Qed.

(** C6, as amended: the parser does not require [-a/--app].  When the
    command line parses, [--fullStack] is not set and no application name
    was given, the script goes on with [None] for the name and is ended by
    an exception before anything is copied: [TypeError], from joining the
    source path, once the input file has been loaded. *)
Theorem app_is_not_required argv args docs fs :
  parse_args argv = Namespace args →
  Args.fullStack args = false → Args.app args = None →
  ∃ e w',
    main jinja_render listing argv docs fs = Raised e w'
    ∧ files w' = fs
    ∧ (∀ file, Args.input args = Some file → is_Some (docs !! file) →
         e = TypeError).
Proof.
  intros Hp Hf Ha. unfold main, run. rewrite Hp, Hf, Ha.
  destruct (Args.input args) as [file|]; [|by eexists _, _].
  destruct (docs !! file) as [fields|] eqn:Hd.
  2:{ eexists _, _. split; [done|]. split; [done|].
      intros ? [= <-] [? ?]. congruence. }
  assert (∀ t, os_path_join3 [] t None = None) as Hj.
  { intros t. unfold os_path_join3. by destruct t. }
  rewrite !Hj. by eexists _, _.
Qed.

(** *** A run of [deploy_app], step by step *)

Lemma stat_emit p e w : stat p (emit e w) = stat p w.
Proof. done. Qed.

Lemma stat_placed dst C es es1 w :
  place true (norm dst) (Dir C) es = Some es1 →
  stat dst (with_files es1 w) = Some (Dir C).
Proof.
  intros H. unfold stat. simpl. apply resolve_norm_dir.
  eapply place_resolve; [apply norm_Forall|done].
Qed.

Lemma deploy_app_done_inv opts w w' :
  deploy_app jinja_render listing opts w = Done w' →
  ∃ S C es1 w2,
    stat (Opts.srcDir opts) w = Some (Dir S)
    ∧ (∀ c, stat (Opts.destDir opts) w ≠ Some (File c))
    ∧ copy_into (Dir S) (entries_of (stat (Opts.destDir opts) w)) = (C, true)
    ∧ place true (norm (Opts.destDir opts)) (Dir C) (files w) = Some es1
    ∧ render_marked jinja_render (Opts.destDir opts)
        (listing (map_to_list C).*1) (Opts.inputJSON opts)
        (with_files es1
           (emit (Printed (Copying (Opts.srcDir opts) (Opts.destDir opts))) w))
      = Done w2
    ∧ w' = emit (Printed (Created (Opts.app opts))) w2.
Proof.
  unfold deploy_app.
  destruct (os_path_exists (Opts.srcDir opts) w); cbn [negb]; [|done].
  unfold copy_tree. rewrite !stat_emit. set (w0 := emit _ w).
  destruct (stat (Opts.srcDir opts) w) as [[?|S]|] eqn:Hsrc; [done| |done].
  intros H.
  assert (∀ c, stat (Opts.destDir opts) w ≠ Some (File c)) as Hnf.
  { intros c Hc. by rewrite Hc in H. }
  assert (and_then
    (let '(d', ok) := copy_into (Dir S) (entries_of (stat (Opts.destDir opts) w)) in
     match place true (norm (Opts.destDir opts)) (Dir d') (files w0) with
     | Some es => if ok then Done (with_files es w0)
                  else Raised DistutilsFileError (with_files es w0)
     | None => Raised DistutilsFileError w0
     end)
    (λ w1, match os_listdir listing (Opts.destDir opts) w1 with
           | inl e => Raised e w1
           | inr names =>
               and_then
                 (render_marked jinja_render (Opts.destDir opts) names
                    (Opts.inputJSON opts) w1)
                 (λ w2, Done (emit (Printed (Created (Opts.app opts))) w2))
           end) = Done w') as H'.
  { by destruct (stat (Opts.destDir opts) w) as [[?|?]|]. }
  clear H.
  destruct (copy_into (Dir S) _) as [C ok] eqn:Hcopy.
  destruct (place true (norm (Opts.destDir opts)) (Dir C) (files w0))
    as [es1|] eqn:Hplace; [|done].
  destruct ok; [|done]. cbn [and_then] in H'.
  unfold os_listdir in H'.
  rewrite (stat_placed _ _ _ _ _ Hplace) in H'.
  destruct (render_marked _ _ _ _ _) as [w2| |] eqn:Hloop; [|done|done].
  injection H' as <-. by exists S, C, es1, w2.
Qed.

Lemma deploy_app_done_intro opts w S C es1 w2 :
  stat (Opts.srcDir opts) w = Some (Dir S) →
  (∀ c, stat (Opts.destDir opts) w ≠ Some (File c)) →
  copy_into (Dir S) (entries_of (stat (Opts.destDir opts) w)) = (C, true) →
  place true (norm (Opts.destDir opts)) (Dir C) (files w) = Some es1 →
  render_marked jinja_render (Opts.destDir opts)
    (listing (map_to_list C).*1) (Opts.inputJSON opts)
    (with_files es1
       (emit (Printed (Copying (Opts.srcDir opts) (Opts.destDir opts))) w))
  = Done w2 →
  deploy_app jinja_render listing opts w
  = Done (emit (Printed (Created (Opts.app opts))) w2).
Proof.
  intros Hsrc Hnf Hcopy Hplace Hloop. unfold deploy_app, os_path_exists.
  rewrite Hsrc. cbn [negb]. unfold copy_tree. rewrite !stat_emit, Hsrc.
  destruct (stat (Opts.destDir opts) w) as [[c|?]|] eqn:E;
    [by destruct (Hnf c)| |];
    rewrite Hcopy; cbn [files emit]; rewrite Hplace; cbn [and_then];
    unfold os_listdir; rewrite (stat_placed _ _ _ _ _ Hplace);
    by rewrite Hloop.
Qed.

(** *** Files without the marker *)

Lemma rendering_spares dd d n ctx w :
  stat dd w = Some (Dir d) →
  Str.endswith n ".j2" = false →
  d !! (n +:+ ".j2") = None →
  ∃ d',
    stat dd (final (render_marked jinja_render dd
                      (listing (map_to_list d).*1) ctx w)) = Some (Dir d')
    ∧ d' !! n = d !! n.
Proof.
  intros Hd Hn Hj. apply render_marked_frame; [done|].
  intros m Hm%(listing_elem listing listing_perm) Hk. split.
  - intros ->. congruence.
  - intros <-. assert (d !! m = None) as Hnone.
    { rewrite (marked_inv m Hk). exact Hj. }
    rewrite Hnone in Hm. by destruct Hm.
Qed.


(** *** The destination after a run *)

Lemma apart_listing C :
  no_marked_pair C → apart (listing (map_to_list C).*1).
Proof.
  intros H m Hm%(listing_elem listing listing_perm) Hk
    [Hk' Hin%(listing_elem listing listing_perm)].
  rewrite (H m Hm Hk Hk') in Hin. by destruct Hin.
Qed.

Lemma loop_top dd C ctx w w2 :
  stat dd w = Some (Dir C) → no_marked_pair C →
  render_marked jinja_render dd (listing (map_to_list C).*1) ctx w = Done w2 →
  ∃ D',
    stat dd w2 = Some (Dir D')
    ∧ files w2 = graft (norm dd) D' (files w)
    ∧ ∀ n,
        (∃ source out,
           C !! (n +:+ ".j2") = Some (File source)
           ∧ renders jinja_render dd ctx source out
           ∧ D' !! n = Some (File out)
           ∧ n ≠ "" ∧ ∀ s, C !! n ≠ Some (Dir s))
        ∨ (C !! (n +:+ ".j2") = None
           ∧ D' !! n = if Str.endswith n ".j2" then None else C !! n).
Proof.
  intros Hst Hpair Hrun.
  destruct (render_marked_done jinja_render dd ctx _ _ _ _ Hst
              (listing_NoDup listing listing_perm C)
              (apart_listing C Hpair) Hrun) as (D' & Hst' & Hfiles & Hent).
  exists D'. split; [done|]. split; [done|]. intros n.
  destruct (Hent n) as [(_ & source & out & H1 & H2 & H3 & H4 & H5)|[Hno Hr]].
  - left. by exists source, out.
  - right.
    assert (C !! (n +:+ ".j2") = None) as Hnone.
    { destruct (C !! (n +:+ ".j2")) eqn:E; [|done]. destruct Hno.
      split; [|done]. apply (listing_elem listing listing_perm). by rewrite E. }
    split; [done|].
    destruct (decide (marked n ∧ n ∈ listing (map_to_list C).*1))
      as [[Hm _]|Hnot].
    + by rewrite Hm.
    + rewrite Hr. destruct (Str.endswith n ".j2") eqn:Hm; [|done].
      destruct (C !! n) eqn:E; [|done]. destruct Hnot.
      split; [done|]. apply (listing_elem listing listing_perm). by rewrite E.
Qed.


(** *** A second run *)

Lemma stat_files p v w : files v = files w → stat p v = stat p w.
Proof. unfold stat. by intros ->. Qed.

Hypothesis jinja_local : ∀ env es es' source vars,
  jinja_render env es source vars = jinja_render env es' source vars.

Lemma renders_once dd ctx source out out' :
  renders jinja_render dd ctx source out →
  renders jinja_render dd ctx source out' → out = out'.
Proof.
  intros [es H] [es' H']. rewrite (jinja_local _ es es') in H. congruence.
Qed.

(** C7, as amended.  The first run goes into a destination that does not
    exist or is empty, from a source directory none of whose top-level
    names carries the marker twice, and it succeeds; Jinja2 renders a
    template source to the same text whatever files are around.  A second
    run with the same options, on the files the first run left and with
    the source directory still as it was, succeeds as well and leaves the
    files exactly as the first run left them. *)
Theorem second_run_same_files opts w w1 v S :
  stat (Opts.srcDir opts) w = Some (Dir S) →
  entries_of (stat (Opts.destDir opts) w) = ∅ →
  no_twice_marked S →
  deploy_app jinja_render listing opts w = Done w1 →
  files v = files w1 →
  stat (Opts.srcDir opts) w1 = Some (Dir S) →
  ∃ w2, deploy_app jinja_render listing opts v = Done w2
        ∧ files w2 = files w1.
Proof.
  intros Hsrc Hempty Htwice Hrun Hv Hsrc1.
  (* the first run *)
  destruct (deploy_app_done_inv _ _ _ Hrun)
    as (S' & C & es1 & wa & Hsrc' & Hnf & Hcopy & Hplace & Hloop & ->).
  rewrite Hsrc in Hsrc'. injection Hsrc' as <-. rewrite Hempty in Hcopy.
  set (dd := Opts.destDir opts) in *. set (ctx := Opts.inputJSON opts) in *.
  assert (∀ k, is_Some (C !! k) → is_Some (S !! k)) as HCS.
  { intros k [c Hc]. destruct c as [data|sub].
    - apply (copied_file _ _ _ _ Hcopy) in Hc as [-> _]. done.
    - apply (copied_dir _ _ _ _ Hcopy) in Hc as (s & -> & _). done. }
  assert (no_twice_marked C) as HtwiceC.
  { intros m Hm Hk. apply Htwice; [by apply HCS|done]. }
  assert (no_marked_pair C) as HpairC.
  { intros m Hm Hk Hk'. rewrite (HtwiceC m Hm Hk) in Hk'. done. }
  set (wc := with_files es1 _) in *.
  assert (stat dd wc = Some (Dir C)) as Hstc
    by by apply (stat_placed _ _ (files w)).
  destruct (loop_top _ _ _ _ _ Hstc HpairC Hloop) as (D1 & HD1 & _ & Htop1).
  assert (stat dd v = Some (Dir D1)) as Hdv.
  { rewrite (stat_files _ _ _ Hv). by rewrite stat_emit. }
  assert (stat (Opts.srcDir opts) v = Some (Dir S)) as Hsv.
  { by rewrite (stat_files _ _ _ Hv). }
  assert (∀ m, marked m → D1 !! m = None) as HD1m.
  { intros m Hk.
    destruct (Htop1 m) as [(source & out & H1 & _)|[_ H3]]; [|by rewrite Hk in H3].
    assert (Str.endswith (unmarked (m +:+ ".j2")) ".j2" = false) as Hx.
    { apply HtwiceC; [by rewrite H1|apply marked_app]. }
    rewrite unmarked_app in Hx. congruence. }
  assert (∀ m, marked m → ∀ s, C !! m ≠ Some (Dir s)) as Hmd.
  { intros m Hk s Hs. destruct (Htop1 (unmarked m)) as
      [(source & out & H1 & _)|[H1 _]];
      rewrite <- (marked_inv _ Hk) in H1; congruence. }
  (* the copy of the second run *)
  assert (∀ k, copy_entry k (S !! k) (D1 !! k)
               = (match C !! k with Some c => Some c | None => D1 !! k end, true))
    as Hentry.
  { intros k. destruct (S !! k) as [c|] eqn:HS.
    2:{ assert (C !! k = None) as -> by (apply (copied_none _ _ _ Hcopy); by left).
        done. }
    unfold copy_entry. destruct (Str.startswith k ".nfs") eqn:Hnfs.
    { assert (C !! k = None) as -> by (apply (copied_none _ _ _ Hcopy); by right).
      done. }
    destruct c as [data|s].
    - assert (C !! k = Some (File data)) as HCk
        by by apply (copied_file _ _ _ _ Hcopy).
      rewrite HCk.
      destruct (Htop1 k) as [(source & out & _ & _ & -> & _)|[_ ->]]; [done|].
      destruct (Str.endswith k ".j2"); [done|]. by rewrite HCk.
    - destruct (copy_into (Dir s) ∅) as [sub ok] eqn:Hcs.
      assert (ok = true) as ->.
      { destruct (copy_into_empty_lookup _ _ k Hcopy) as [_ Hok].
        specialize (Hok s HS Hnfs). by rewrite Hcs in Hok. }
      assert (C !! k = Some (Dir sub)) as HCk.
      { apply (copied_dir _ _ _ _ Hcopy). eauto. }
      rewrite HCk.
      destruct (Htop1 k) as [(source & out & _ & _ & _ & _ & H5)|[_ H3]].
      { by destruct (H5 sub). }
      destruct (Str.endswith k ".j2") eqn:Hk; [by destruct (Hmd k Hk sub)|].
      rewrite H3, HCk. by rewrite (copy_into_again _ _ _ Hcs). }
  destruct (copy_into_ok S D1) as [C2 Hcopy2].
  { intros k. by rewrite Hentry. }
  assert (∀ k, C2 !! k = match C !! k with Some c => Some c | None => D1 !! k end)
    as HC2.
  { intros k. pose proof (copy_into_lookup _ _ _ k Hcopy2) as H.
    rewrite Hentry in H. congruence. }
  assert (∀ m, marked m → C2 !! m = C !! m) as HC2m.
  { intros m Hk. rewrite HC2, (HD1m m Hk). by destruct (C !! m). }
  destruct (place_defined (norm dd) D1 C2 (files v) (norm_Forall dd))
    as [es2 Hplace2].
  { apply resolve_norm. exact Hdv. }
  set (wd := with_files es2
               (emit (Printed (Copying (Opts.srcDir opts) dd)) v)).
  assert (stat dd wd = Some (Dir C2)) as Hstd
    by by apply (stat_placed _ _ (files v)).
  assert (no_marked_pair C2) as HpairC2.
  { intros m Hm Hk Hk'. rewrite (HC2m m Hk) in Hm.
    rewrite (HtwiceC m Hm Hk) in Hk'. done. }
  (* the loop of the second run *)
  destruct (render_marked_runs jinja_render dd ctx jinja_local
              (listing (map_to_list C2).*1) wd C2 Hstd
              (listing_NoDup listing listing_perm C2)
              (apart_listing C2 HpairC2)) as [wb Hloop2].
  { intros m t _ Hk Ht. rewrite (HC2m m Hk) in Ht.
    destruct (Htop1 (unmarked m)) as
      [(source & out & H1 & H2 & H3 & H4 & H5)|[H1 _]];
      rewrite <- (marked_inv _ Hk) in H1; [|congruence].
    exists source, out. split; [congruence|]. split; [done|]. split; [done|].
    intros s. rewrite HC2, H3. destruct (C !! unmarked m) eqn:E; [|done].
    intros [= ->]. by destruct (H5 s). }
  exists (emit (Printed (Created (Opts.app opts))) wb). split.
  { apply (deploy_app_done_intro opts v S C2 es2 wb); try done.
    - intros c. fold dd. by rewrite Hdv.
    - fold dd. by rewrite Hdv. }
  destruct (loop_top _ _ _ _ _ Hstd HpairC2 Hloop2) as (D2 & HD2 & Hfiles2 & Htop2).
  assert (D2 = D1) as ->.
  { apply map_eq. intros n.
    destruct (Htop2 n) as [(source2 & out2 & H1 & H2 & H3 & _)|[H1 H3]].
    - rewrite (HC2m _ (marked_app n)) in H1.
      destruct (Htop1 n) as [(source & out & G1 & G2 & G3 & _)|[G1 _]];
        [|congruence].
      rewrite H3, G3. rewrite G1 in H1. injection H1 as <-.
      by rewrite (renders_once _ _ _ _ _ G2 H2).
    - rewrite (HC2m _ (marked_app n)) in H1.
      destruct (Htop1 n) as [(source & out & G1 & _)|[_ G3]]; [congruence|].
      rewrite H3, G3. destruct (Str.endswith n ".j2"); [done|].
      rewrite HC2, G3. by destruct (C !! n). }
  cbn [files emit]. rewrite Hfiles2. unfold wd. cbn [files with_files emit].
  unfold graft. rewrite (place_place _ _ _ _ _ Hplace2).
  rewrite (place_same (norm dd) D1 (files v) (norm_Forall dd)).
  - done.
  - apply resolve_norm. exact Hdv.
Qed.

End Verification.


(** * The statements on concrete inputs *)

Lemma render_template_missing_witness :
  render_template Tiny.tiny_jinja ["out"] "gone.j2" "gone" Fixture.ada
    (Fixture.start Fixture.out_web)
  = Done (Fixture.start Fixture.out_web).
Proof. apply render_template_missing. vm_compute. reflexivity. Defined.

Lemma render_template_raised_witness :
  let w := Fixture.start Fixture.out_broken in
  let w' := emit (Rendered ["out"] "function.yaml.j2" Fixture.ada) w in
  files w' = files w
  ∧ os_path_exists (os_path_join ["out"] "function.yaml.j2") w' = true
  ∧ stat (os_path_join ["out"] "function.yaml.j2") w'
    = stat (os_path_join ["out"] "function.yaml.j2") w.
Proof.
  apply (render_template_raised Tiny.tiny_jinja ["out"] "function.yaml.j2"
           "function.yaml" Fixture.ada _ TemplateError).
  vm_compute. reflexivity.
Defined.




(** C3 on a command line that names an application without templates. *)
Lemma exit_when_source_missing_witness :
  let o := run Tiny.tiny_jinja id Fixture.args_web Fixture.docs ∅ in
  (∃ w', o = Exited 1 w') ∧ exit_status o = 1%Z ∧ files (final o) = ∅.
Proof.
  apply (exit_when_source_missing Tiny.tiny_jinja id Fixture.args_web
           Fixture.docs ∅ "in.json" [("name", JStr "Ada")] "web"
           ["tpl"; "web"] ["out"; "web"]);
    vm_compute; reflexivity.
Defined.

(** C3 counterexample: the source directory of the registered component
    exists, and the process still ends with status 1, because a template
    does not render. *)
Lemma status_one_with_source_present :
  os_path_isdir ["tpl"; "lambda"] (Fixture.start Fixture.fs_broken) = true
  ∧ exit_status
      (main Tiny.tiny_jinja id Fixture.argv_full Fixture.docs Fixture.fs_broken)
    = 1%Z
  ∧ ∃ w, main Tiny.tiny_jinja id Fixture.argv_full Fixture.docs Fixture.fs_broken
         = Raised TemplateError w.
Proof.
  split; [vm_compute; reflexivity|]. split; [vm_compute; reflexivity|].
  eexists. vm_compute. reflexivity.
Defined.

(** C6 on the command line without [-a]. *)
Lemma app_is_not_required_witness :
  ∃ e w',
    main Tiny.tiny_jinja id Fixture.argv_no_app Fixture.docs Fixture.fs_web
    = Raised e w'
    ∧ files w' = Fixture.fs_web
    ∧ (∀ file, Args.input Fixture.args_no_app = Some file →
         is_Some (Fixture.docs !! file) → e = TypeError).
Proof.
  apply (app_is_not_required Tiny.tiny_jinja id Fixture.argv_no_app
           Fixture.args_no_app Fixture.docs Fixture.fs_web);
    vm_compute; reflexivity.
Defined.

(** C6 counterexample: without [--fullStack] and without [-a] the command
    line parses, and the script does not end with a usage error (status 2)
    but with an uncaught [TypeError]. *)
Lemma no_usage_error_without_app :
  parse_args Fixture.argv_no_app = Namespace Fixture.args_no_app
  ∧ (∃ w, main Tiny.tiny_jinja id Fixture.argv_no_app Fixture.docs Fixture.fs_web
          = Raised TypeError w)
  ∧ ¬ ∃ w, main Tiny.tiny_jinja id Fixture.argv_no_app Fixture.docs Fixture.fs_web
           = Exited 2 w.
Proof.
  split; [vm_compute; reflexivity|]. split.
  - eexists. vm_compute. reflexivity.
  - intros [w H]. vm_compute in H. discriminate H.
Defined.





(** C7 on the application [web], run twice. *)
Lemma second_run_same_files_witness :
  let w1 := final (deploy_app Tiny.tiny_jinja id Fixture.opts_web
                     (Fixture.start Fixture.fs_web)) in
  ∃ w2,
    deploy_app Tiny.tiny_jinja id Fixture.opts_web (Fixture.start (files w1))
    = Done w2
    ∧ files w2 = files w1.
Proof.
  apply (second_run_same_files Tiny.tiny_jinja id (λ l, reflexivity l)
           (λ env es es' source vars, eq_refl)
           Fixture.opts_web (Fixture.start Fixture.fs_web) _ _ Fixture.web).
  - vm_compute. reflexivity.
  - vm_compute. reflexivity.
  - apply no_twice_marked_check. vm_compute. reflexivity.
  - vm_compute. reflexivity.
  - reflexivity.
  - vm_compute. reflexivity.
Defined.

(** C7 counterexample, on four inputs.  After the first run no top-level
    name of the destination is marked, and still: in the second run the copy
    is not a copy of identical contents (it puts [greeting.txt.j2] back) and
    the loop finds that template and renders it again; with a marked file
    left in the destination from before, the two runs end with different
    contents; so they do with [a.j2.j2] beside [a.j2] when the directory is
    listed in another order the second time; and so they do with a template
    that includes the file it renders to. *)
Lemma second_run_renders_again :
  (let o1 := main Tiny.tiny_jinja id Fixture.argv_web Fixture.docs Fixture.fs_web in
   let v := Fixture.start (files (final o1)) in
   let o2 := main Tiny.tiny_jinja id Fixture.argv_web Fixture.docs (files (final o1)) in
   exit_status o1 = 0%Z
   ∧ filter (λ n, marked n)
       (map_to_list (entries_of (stat ["out"; "web"] (final o1)))).*1 = []
   ∧ stat ["out"; "web"; "greeting.txt.j2"]
       (final (copy_tree ["tpl"; "web"] ["out"; "web"] v))
     = Some (File "Hello, {{ name }}!")
   ∧ files (final (copy_tree ["tpl"; "web"] ["out"; "web"] v)) ≠ files v
   ∧ contexts (trace (final o2)) = [Fixture.ada])
  ∧ (let o1 := main Tiny.tiny_jinja id Fixture.argv_web Fixture.docs
                 Fixture.fs_leftover in
     let o2 := main Tiny.tiny_jinja id Fixture.argv_web Fixture.docs
                 (files (final o1)) in
     exit_status o1 = 0%Z ∧ exit_status o2 = 0%Z
     ∧ filter (λ n, marked n)
         (map_to_list (entries_of (stat ["out"; "web"] (final o1)))).*1 = []
     ∧ stat ["out"; "web"; "a"] (final o1) = Some (File "old")
     ∧ stat ["out"; "web"; "a"] (final o2) = Some (File "new"))
  ∧ (let o1 := main Tiny.tiny_jinja Fixture.two_first Fixture.argv_web
                 Fixture.docs Fixture.fs_pair in
     let o2 := main Tiny.tiny_jinja Fixture.two_first Fixture.argv_web
                 Fixture.docs (files (final o1)) in
     exit_status o1 = 0%Z ∧ exit_status o2 = 0%Z
     ∧ filter (λ n, marked n)
         (map_to_list (entries_of (stat ["out"; "web"] (final o1)))).*1 = []
     ∧ stat ["out"; "web"; "a"] (final o1) = Some (File "two")
     ∧ stat ["out"; "web"; "a"] (final o2) = Some (File "one"))
  ∧ (let o1 := main Fixture.including id Fixture.argv_web Fixture.docs
                 Fixture.fs_including in
     let o2 := main Fixture.including id Fixture.argv_web Fixture.docs
                 (files (final o1)) in
     exit_status o1 = 0%Z ∧ exit_status o2 = 0%Z
     ∧ filter (λ n, marked n)
         (map_to_list (entries_of (stat ["out"; "web"] (final o1)))).*1 = []
     ∧ stat ["out"; "web"; "greeting.txt"] (final o1) = Some (File "!")
     ∧ stat ["out"; "web"; "greeting.txt"] (final o2) = Some (File "!!")).
Proof.
  split; [|split; [|split]].
  - split; [vm_compute; reflexivity|]. split; [vm_compute; reflexivity|].
    split; [vm_compute; reflexivity|]. split; [|vm_compute; reflexivity].
    intros H.
    apply (f_equal (λ es, resolve ["out"; "web"; "greeting.txt.j2"] (Dir es))) in H.
    vm_compute in H. discriminate H.
  - vm_compute. repeat split.
  - vm_compute. repeat split.
  - vm_compute. repeat split.
Defined.

(** The example of the specification: the template [greeting.txt.j2] that
    greets the variable [name], and an input that binds [name] to Ada. *)
Example greeting :
  let o := main Tiny.tiny_jinja id Fixture.argv_web Fixture.docs Fixture.fs_web in
  exit_status o = 0%Z
  ∧ stat ["out"; "web"; "greeting.txt"] (final o) = Some (File "Hello, Ada!")
  ∧ stat ["out"; "web"; "greeting.txt.j2"] (final o) = None
  ∧ stat ["out"; "web"; "charts"; "values.yaml.j2"] (final o)
    = Some (File "name: {{ name }}").
Proof. vm_compute. repeat split. Qed.


(** * Further properties of the script *)

(** ** Names and the marker *)
Section Names.

Lemma chars_length s : length (Str.chars s) = String.length s.
Proof. induction s as [|a s IH]; [done|]. cbn. by rewrite <- IH. Qed.

(** X1: for a name [m] that ends in [.j2], the name [m[:-3]] that
    [deploy_app] passes as the output name is [m] without its last three
    characters: putting [.j2] back gives [m], and the output name is
    shorter by three.  So two marked names with the same output name are
    the same name.  A string of at most three characters has the empty
    slice. *)
Theorem output_name_round_trip :
  (∀ m, marked m →
     unmarked m +:+ ".j2" = m
     ∧ String.length m = String.length (unmarked m) + 3)
  ∧ (∀ m m', marked m → marked m' → unmarked m = unmarked m' → m = m')
  ∧ (∀ s, String.length s ≤ 3 → Str.slice_to_minus 3 s = "").
Proof.
  split; [|split].
  - intros m Hm. pose proof (marked_inv m Hm) as H. split; [done|].
    rewrite H at 1. rewrite <- !chars_length, StrFacts.chars_app, length_app.
    done.
  - intros m m' Hm Hm' H.
    rewrite (marked_inv m Hm), (marked_inv m' Hm'). by rewrite H.
  - intros s Hs. unfold Str.slice_to_minus. rewrite chars_length.
    replace (String.length s - 3) with 0 by lia. done.
Qed.

End Names.

(** ** What a change below one path leaves alone *)
Section Outside.
Implicit Types (p q : path) (es : gmap string node).

Lemma place_head b y q v es es' :
  place b (y :: q) v es = Some es' → ∃ v', es' = <[y := v']> es.
Proof.
  destruct q as [|z q].
  - cbn. intros [= <-]. eauto.
  - rewrite place_cons2.
    destruct (es !! y) as [[?|sub]|]; [done| |].
    + destruct (place b (z :: q) v sub); [|done]. cbn. intros [= <-]. eauto.
    + destruct b; [|done].
      destruct (place true (z :: q) v ∅); [|done]. cbn. intros [= <-]. eauto.
Qed.

Lemma resolve_in_empty p :
  p ≠ [] → Forall (λ x, x ≠ "") p → resolve p (Dir ∅) = None.
Proof.
  destruct p as [|x p]; [done|]. intros _ [Hx _]%Forall_cons. cbn.
  by rewrite decide_False, lookup_empty.
Qed.

Lemma place_diverge c : ∀ b x y p' q' v es es',
  x ≠ y → Forall (λ x, x ≠ "") (c ++ x :: p') →
  place b (c ++ y :: q') v es = Some es' →
  resolve (c ++ x :: p') (Dir es') = resolve (c ++ x :: p') (Dir es).
Proof.
  induction c as [|z c IH]; intros b x y p' q' v es es' Hxy Hcan Hp.
  - cbn [app] in *. apply Forall_cons in Hcan as [Hx _].
    destruct (place_head _ _ _ _ _ _ Hp) as [v' ->]. cbn [resolve].
    by rewrite !decide_False, lookup_insert_ne by done.
  - cbn [app] in *. apply Forall_cons in Hcan as [Hz Hcan].
    assert (∃ k r, c ++ y :: q' = k :: r) as (k & r & Hkr).
    { destruct c; cbn; eauto. }
    rewrite Hkr, place_cons2, <- Hkr in Hp. cbn [resolve].
    rewrite !decide_False by done.
    destruct (es !! z) as [[?|sub]|] eqn:Ez; [done| |].
    + destruct (place b (c ++ y :: q') v sub) as [sub'|] eqn:Es; [|done].
      cbn in Hp. injection Hp as <-. rewrite lookup_insert_eq. cbn.
      by apply (IH _ _ _ _ _ _ _ _ Hxy Hcan Es).
    + destruct b; [|done].
      destruct (place true (c ++ y :: q') v ∅) as [sub'|] eqn:Es; [|done].
      cbn in Hp. injection Hp as <-. rewrite lookup_insert_eq. cbn.
      rewrite (IH _ _ _ _ _ _ _ _ Hxy Hcan Es).
      apply resolve_in_empty; [by destruct c|done].
Qed.

Lemma graft_outside q d' es p :
  Forall (λ x, x ≠ "") p → diverge p q →
  resolve p (Dir (graft q d' es)) = resolve p (Dir es).
Proof.
  intros Hcan (c & x & y & p' & q' & -> & -> & Hxy). unfold graft.
  destruct (place true (c ++ y :: q') (Dir d') es) as [es'|] eqn:E; [|done].
  cbn. by eapply place_diverge.
Qed.

Lemma keeps_outside_here q w o : files (final o) = files w → keeps_outside q w o.
Proof. intros H p _ _. unfold stat. by rewrite H. Qed.

Lemma keeps_outside_graft q d' w o :
  files (final o) = graft q d' (files w) → keeps_outside q w o.
Proof. intros H p Hcan Hd. unfold stat. rewrite H. by apply graft_outside. Qed.

Lemma keeps_outside_and_then q w o k :
  keeps_outside q w o → (∀ w1, keeps_outside q w1 (k w1)) →
  keeps_outside q w (and_then o k).
Proof.
  intros Ho Hk. destruct o as [w1|c w1|e w1]; [|done|done].
  intros p Hcan Hd. cbn [and_then]. rewrite (Hk w1 p Hcan Hd).
  by apply (Ho p).
Qed.
End Outside.


(** ** One call of [render_template] *)
Section OneTemplate.
Variable jinja_render :
  Environment → gmap string node → string → gmap string json → option string.

Lemma stat_below_file dd x w :
  (∀ d, stat dd w ≠ Some (Dir d)) → stat (os_path_join dd x) w = None.
Proof.
  unfold stat, os_path_join. intros H. rewrite resolve_app.
  destruct (resolve dd (Dir (files w))) as [[c|d]|]; [done| |done].
  by destruct (H d).
Qed.

(** The directory of the templates after a call, whatever its outcome: it
    is still a directory, the file system is the former one with that
    directory replaced, and only the two names of the call can differ. *)
Lemma render_template_inside dd d n f ctx w :
  stat dd w = Some (Dir d) →
  ∃ d', stat dd (final (render_template jinja_render dd n f ctx w)) = Some (Dir d')
        ∧ files (final (render_template jinja_render dd n f ctx w))
          = graft (norm dd) d' (files w)
        ∧ ∀ k, k ≠ n → k ≠ f → d' !! k = d !! k.
Proof.
  intros Hst.
  assert (files w = graft (norm dd) d (files w)) as Hsame.
  { symmetry. eapply graft_same; [apply norm_Forall|]. by apply resolve_norm. }
  assert (∀ o, files (final o) = files w → stat dd (final o) = Some (Dir d)) as Hkeep.
  { intros o Ho. unfold stat. by rewrite Ho. }
  destruct (decide (n = "")) as [->|Hn].
  { exists d. unfold render_template, os_path_exists, get_template_render.
    rewrite (stat_child _ _ _ _ Hst), decide_True by done. cbn [negb].
    rewrite stat_emit, (stat_child _ _ _ _ Hst), decide_True by done.
    done. }
  rewrite (render_template_at _ _ _ _ _ _ _ Hst Hn).
  destruct (d !! n) as [[source|sub]|] eqn:Edn; [|by exists d|by exists d].
  destruct (jinja_render _ (files w) source ctx) as [out|]; [|by exists d].
  destruct (decide (f = "")); [by exists d|].
  set (d1 := delete n (<[f:=File out]> d)).
  assert (∃ d', stat dd (final (Done (with_files (graft (norm dd) d1 (files w))
                                        (emit (Rendered dd n ctx) w)))) = Some (Dir d')
                ∧ files (final (Done (with_files (graft (norm dd) d1 (files w))
                                        (emit (Rendered dd n ctx) w))))
                  = graft (norm dd) d' (files w)
                ∧ ∀ k, k ≠ n → k ≠ f → d' !! k = d !! k) as Hdone.
  { exists d1. split; [by eapply stat_graft|]. split; [done|].
    intros k Hkn Hkf. unfold d1. by rewrite lookup_delete_ne, lookup_insert_ne. }
  destruct (d !! f) as [[?|?]|]; [done|by exists d|done].
Qed.

Lemma render_template_outside dd n f ctx w :
  keeps_outside (norm dd) w (render_template jinja_render dd n f ctx w).
Proof.
  destruct (stat dd w) as [[c|d]|] eqn:Hst.
  - apply keeps_outside_here. unfold render_template, os_path_exists.
    rewrite stat_below_file; [done|]. intros d. by rewrite Hst.
  - destruct (render_template_inside dd d n f ctx w Hst) as (d' & _ & Hf & _).
    by eapply keeps_outside_graft.
  - apply keeps_outside_here. unfold render_template, os_path_exists.
    rewrite stat_below_file; [done|]. intros d. by rewrite Hst.
Qed.


(** X3: the output is written before the template is removed, so a call
    whose output name is the name of the template loses both: when the
    template is a regular file that renders, the call returns and the
    directory holds no entry of that name any more; the other entries are
    as before. *)
Theorem render_template_onto_itself dest_dir d n source out input_json w :
  stat dest_dir w = Some (Dir d) → n ≠ "" →
  d !! n = Some (File source) →
  jinja_render (env_of dest_dir) (files w) source input_json = Some out →
  ∃ w', render_template jinja_render dest_dir n n input_json w = Done w'
        ∧ stat dest_dir w' = Some (Dir (delete n d))
        ∧ stat (os_path_join dest_dir n) w' = None.
Proof.
  intros Hst Hn Hd Hj.
  rewrite (render_template_at _ _ _ _ _ _ _ Hst Hn), Hd, Hj.
  rewrite decide_False by done. eexists. split; [done|].
  assert (delete n (<[n:=File out]> d) = delete n d) as ->.
  { apply map_eq. intros k. destruct (decide (k = n)) as [->|Hk].
    - by rewrite !lookup_delete_eq.
    - by rewrite !lookup_delete_ne, lookup_insert_ne. }
  assert (stat dest_dir
            (with_files (graft (norm dest_dir) (delete n d) (files w))
               (emit (Rendered dest_dir n input_json) w))
          = Some (Dir (delete n d))) as Hst' by by eapply stat_graft.
  split; [done|].
  by rewrite (stat_child _ _ _ _ Hst'), decide_False, lookup_delete_eq.
Qed.
End OneTemplate.


(** ** The order of the renderings *)
Section Order.
Variable jinja_render :
  Environment → gmap string node → string → gmap string json → option string.
Variable listing : list string → list string.
Hypothesis listing_perm : ∀ l, listing l ≡ₚ l.

Lemma marked_of_cons_marked m l : marked m → marked_of (m :: l) = m :: marked_of l.
Proof. intros H. unfold marked_of. by rewrite filter_cons_True. Qed.

Lemma marked_of_cons_plain m l :
  Str.endswith m ".j2" = false → marked_of (m :: l) = marked_of l.
Proof.
  intros H. unfold marked_of. rewrite filter_cons_False; [done|]. congruence.
Qed.

Lemma marked_of_elem n l : n ∈ marked_of l ↔ marked n ∧ n ∈ l.
Proof. unfold marked_of. by rewrite list_elem_of_filter. Qed.

(** The loop over names that are all present when it starts: the
    renderings it asks for are those of the marked names, in the order of
    the list, up to the one that raises. *)
Lemma render_marked_trace dd ctx l : ∀ w d,
  stat dd w = Some (Dir d) → NoDup l →
  (∀ m, m ∈ l → marked m → is_Some (d !! m)) →
  ∃ names,
    names `prefix_of` marked_of l
    ∧ trace (final (render_marked jinja_render dd l ctx w))
      = trace w ++ renderings dd ctx names
    ∧ (∀ w', render_marked jinja_render dd l ctx w = Done w' →
         names = marked_of l).
Proof.
  induction l as [|m l IH]; intros w d Hst Hnd Hin.
  - exists []. cbn. by rewrite app_nil_r.
  - apply NoDup_cons in Hnd as [Hml Hnd].
    assert (∀ m', m' ∈ l → marked m' → is_Some (d !! m')) as Hin'.
    { intros m' Hm'. apply Hin. by right. }
    cbn [render_marked]. destruct (Str.endswith m ".j2") eqn:Hm.
    2:{ rewrite (marked_of_cons_plain _ _ Hm). by apply (IH w d). }
    rewrite (marked_of_cons_marked _ _ Hm).
    assert (∃ names, names `prefix_of` m :: marked_of l
              ∧ trace (emit (Rendered dd m ctx) w)
                = trace w ++ renderings dd ctx names) as Hstop.
    { exists [m]. split; [|done]. by apply (prefix_cons m [] _), prefix_nil. }
    rewrite (render_template_at _ _ _ _ _ _ _ Hst (marked_nonempty _ Hm)).
    destruct (Hin m) as [t Hdm]; [by left|done|]. rewrite Hdm.
    destruct t as [source|sub].
    2:{ destruct Hstop as (names & H1 & H2). exists names. by repeat split. }
    destruct (jinja_render _ (files w) source ctx) as [out|].
    2:{ destruct Hstop as (names & H1 & H2). exists names. by repeat split. }
    destruct (decide (unmarked m = "")).
    { destruct Hstop as (names & H1 & H2). exists names. by repeat split. }
    set (d1 := delete m (<[unmarked m:=File out]> d)).
    set (w1 := with_files (graft (norm dd) d1 (files w))
                 (emit (Rendered dd m ctx) w)).
    assert (stat dd w1 = Some (Dir d1)) as Hst1 by by eapply stat_graft.
    assert (∀ m', m' ∈ l → marked m' → is_Some (d1 !! m')) as Hin1.
    { intros m' Hm' Hk. unfold d1.
      assert (m ≠ m') by (by intros ->).
      rewrite lookup_delete_ne by done.
      destruct (decide (unmarked m = m')) as [->|Hne].
      - by rewrite lookup_insert_eq.
      - rewrite lookup_insert_ne by done. by apply Hin'. }
    destruct (IH w1 d1 Hst1 Hnd Hin1) as (names & Hpre & Htr & Hall).
    assert (∃ names', names' `prefix_of` m :: marked_of l
              ∧ trace (final (and_then (Done w1)
                                (render_marked jinja_render dd l ctx)))
                = trace w ++ renderings dd ctx names'
              ∧ ∀ w', and_then (Done w1) (render_marked jinja_render dd l ctx)
                      = Done w' → names' = m :: marked_of l) as Hgo.
    { exists (m :: names). split; [by apply prefix_cons|].
      cbn [and_then]. rewrite Htr. split.
      - unfold w1. cbn. by rewrite <- (assoc_L (++)).
      - intros w' Hw'. by rewrite (Hall w' Hw'). }
    destruct (d !! unmarked m) as [[?|?]|]; [done| |done].
    destruct Hstop as (names' & H1 & H2). exists names'. by repeat split.
Qed.

(** X4: the loop of [deploy_app] over the listing of a directory asks
    Jinja2 for each marked name of the listing at most once, in the order
    of the listing, and stops at the first rendering that raises: the
    renderings of a run are those of a prefix of the marked names listed,
    and of all of them when the loop reaches its end. *)
Theorem each_template_rendered_once dest_dir d input_json w :
  stat dest_dir w = Some (Dir d) →
  let l := listing (map_to_list d).*1 in
  let o := render_marked jinja_render dest_dir l input_json w in
  NoDup (marked_of l)
  ∧ (∀ n, n ∈ marked_of l ↔ marked n ∧ is_Some (d !! n))
  ∧ ∃ names,
      names `prefix_of` marked_of l
      ∧ trace (final o) = trace w ++ renderings dest_dir input_json names
      ∧ (∀ w', o = Done w' → names = marked_of l).
Proof.
  intros Hst. cbv zeta.
  pose proof (listing_NoDup listing listing_perm d) as Hnd.
  split; [by apply NoDup_filter|]. split.
  { intros n. by rewrite marked_of_elem, (listing_elem listing listing_perm). }
  apply (render_marked_trace _ _ _ w d Hst Hnd).
  intros m Hm _. by apply (listing_elem listing listing_perm).
Qed.
End Order.


(** ** One application *)
Section OneApplication.
Variable jinja_render :
  Environment → gmap string node → string → gmap string json → option string.
Variable listing : list string → list string.
Hypothesis listing_perm : ∀ l, listing l ≡ₚ l.

Lemma keeps_outside_emit q e w o :
  keeps_outside q (emit e w) o → keeps_outside q w o.
Proof. intros H p Hcan Hd. by rewrite (H p Hcan Hd). Qed.

Lemma render_marked_outside dd ctx l : ∀ w,
  keeps_outside (norm dd) w (render_marked jinja_render dd l ctx w).
Proof.
  induction l as [|m l IH]; intros w; cbn [render_marked].
  - by apply keeps_outside_here.
  - destruct (Str.endswith m ".j2"); [|apply IH].
    apply keeps_outside_and_then; [apply render_template_outside|done].
Qed.

Lemma render_marked_inside dd ctx l : ∀ w d,
  stat dd w = Some (Dir d) →
  ∃ d', stat dd (final (render_marked jinja_render dd l ctx w)) = Some (Dir d').
Proof.
  induction l as [|m l IH]; intros w d Hst; cbn [render_marked].
  - by exists d.
  - destruct (Str.endswith m ".j2"); [|by apply (IH w d)].
    destruct (render_template_inside jinja_render dd d m (unmarked m) ctx w Hst)
      as (d1 & Hst1 & _).
    destruct (render_template jinja_render dd m (unmarked m) ctx w)
      as [w1|c w1|e w1]; [|by exists d1|by exists d1].
    cbn [and_then]. by apply (IH w1 d1).
Qed.

Lemma copy_tree_done src dst w w1 :
  copy_tree src dst w = Done w1 →
  ∃ S C, stat src w = Some (Dir S)
         ∧ copy_into (Dir S) (entries_of (stat dst w)) = (C, true)
         ∧ stat dst w1 = Some (Dir C) ∧ trace w1 = trace w.
Proof.
  unfold copy_tree.
  destruct (stat src w) as [[?|S]|]; [done| |done].
  intros H.
  assert ((let '(d', ok) := copy_into (Dir S) (entries_of (stat dst w)) in
           match place true (norm dst) (Dir d') (files w) with
           | Some es => if ok then Done (with_files es w)
                        else Raised DistutilsFileError (with_files es w)
           | None => Raised DistutilsFileError w
           end) = Done w1) as H'.
  { by destruct (stat dst w) as [[?|?]|]. }
  clear H. destruct (copy_into (Dir S) _) as [C ok] eqn:Hc.
  destruct (place true (norm dst) (Dir C) (files w)) as [es|] eqn:Hp; [|done].
  destruct ok; [|done]. injection H' as <-. exists S, C.
  split; [done|]. split; [done|]. split; [|done].
  by apply (stat_placed _ _ (files w)).
Qed.

Lemma copy_tree_outside src dst w :
  keeps_outside (norm dst) w (copy_tree src dst w).
Proof.
  unfold copy_tree.
  destruct (stat src w) as [[?|S]|]; [by apply keeps_outside_here| |by apply keeps_outside_here].
  assert (keeps_outside (norm dst) w
            (let '(d', ok) := copy_into (Dir S) (entries_of (stat dst w)) in
             match place true (norm dst) (Dir d') (files w) with
             | Some es => if ok then Done (with_files es w)
                          else Raised DistutilsFileError (with_files es w)
             | None => Raised DistutilsFileError w
             end)) as H.
  { destruct (copy_into (Dir S) _) as [C ok].
    destruct (place true (norm dst) (Dir C) (files w)) as [es|] eqn:Hp;
      [|by apply keeps_outside_here].
    apply (keeps_outside_graft _ C). unfold graft. rewrite Hp.
    by destruct ok. }
  destruct (stat dst w) as [[?|?]|]; [by apply keeps_outside_here|done|done].
Qed.

Lemma deploy_app_outside opts w :
  keeps_outside (norm (Opts.destDir opts)) w
    (deploy_app jinja_render listing opts w).
Proof.
  unfold deploy_app.
  destruct (os_path_exists (Opts.srcDir opts) w); cbn [negb];
    [|by apply keeps_outside_here].
  eapply keeps_outside_emit. apply keeps_outside_and_then;
    [apply copy_tree_outside|].
  intros w1. destruct (os_listdir listing (Opts.destDir opts) w1);
    [by apply keeps_outside_here|].
  apply keeps_outside_and_then; [apply render_marked_outside|].
  intros w2. by apply keeps_outside_here.
Qed.

Lemma prefix_marked_of names l :
  NoDup l → names `prefix_of` marked_of l →
  NoDup names ∧ Forall (λ n, marked n) names.
Proof.
  intros Hnd [k Hk].
  assert (NoDup (marked_of l)) as Hm by by apply NoDup_filter.
  rewrite Hk in Hm. apply NoDup_app in Hm as [Hn _]. split; [done|].
  apply Forall_forall. intros n Hn'.
  assert (n ∈ marked_of l) as Hin.
  { rewrite Hk. apply elem_of_app. by left. }
  unfold marked_of in Hin. by apply list_elem_of_filter in Hin as [? _].
Qed.

Lemma last_said t src dst dd ctx names a :
  last (t ++ Printed (Copying src dst) :: renderings dd ctx names)
  ≠ Some (Printed (Created a)).
Proof.
  rewrite last_app, last_cons. unfold renderings. rewrite fmap_last.
  by destruct (last names).
Qed.

Lemma deploy_app_said opts w :
  match deploy_app jinja_render listing opts w with
  | Exited code w' =>
      code = 1%Z ∧ os_path_exists (Opts.srcDir opts) w = false
      ∧ w' = emit (Printed (MissingSource (Opts.srcDir opts))) w
  | Done w' =>
      ∃ names, NoDup names ∧ Forall (λ n, marked n) names
               ∧ trace w'
                 = (trace w ++ Printed (Copying (Opts.srcDir opts) (Opts.destDir opts))
                             :: renderings (Opts.destDir opts)
                                  (Opts.inputJSON opts) names)
                   ++ [Printed (Created (Opts.app opts))]
  | Raised e w' =>
      os_path_exists (Opts.srcDir opts) w = true
      ∧ ∃ names, NoDup names ∧ Forall (λ n, marked n) names
                 ∧ trace w'
                   = trace w ++ Printed (Copying (Opts.srcDir opts) (Opts.destDir opts))
                               :: renderings (Opts.destDir opts)
                                    (Opts.inputJSON opts) names
  end.
Proof.
  unfold deploy_app.
  destruct (os_path_exists (Opts.srcDir opts) w) eqn:Hex; cbn [negb]; [|done].
  set (w0 := emit _ w).
  pose proof (copy_tree_final (Opts.srcDir opts) (Opts.destDir opts) w0)
    as [Htr Hne].
  destruct (copy_tree (Opts.srcDir opts) (Opts.destDir opts) w0)
    as [w1|c w1|e w1] eqn:Hcopy; [|done|].
  2:{ cbn [and_then]. split; [done|]. exists []. split; [constructor|].
      split; [constructor|]. cbn in Htr. by rewrite Htr. }
  destruct (copy_tree_done _ _ _ _ Hcopy) as (S & C & _ & _ & Hst & Htr1).
  cbn [and_then]. unfold os_listdir. rewrite Hst.
  destruct (render_marked_trace jinja_render (Opts.destDir opts)
              (Opts.inputJSON opts) _ w1 C Hst
              (listing_NoDup listing listing_perm C))
    as (names & Hpre & Hloop & _).
  { intros m Hm _. by apply (listing_elem listing listing_perm). }
  destruct (prefix_marked_of _ _ (listing_NoDup listing listing_perm C) Hpre)
    as [Hnd Hall].
  pose proof (render_marked_extends jinja_render (Opts.destDir opts)
                (Opts.inputJSON opts) (listing (map_to_list C).*1) w1)
    as [_ Hne2].
  assert (trace w1 = trace w ++ [Printed (Copying (Opts.srcDir opts)
                                            (Opts.destDir opts))]) as Hw1.
  { by rewrite Htr1. }
  destruct (render_marked _ _ _ _ w1) as [w2|c w2|e w2]; [|done|].
  - cbn [and_then]. exists names. split; [done|]. split; [done|].
    cbn in Hloop. cbn [emit trace]. rewrite Hloop, Hw1.
    by rewrite <- !(assoc_L (++)).
  - cbn [and_then]. split; [done|]. exists names. split; [done|].
    split; [done|]. cbn in Hloop. rewrite Hloop, Hw1.
    by rewrite <- !(assoc_L (++)).
Qed.

(** X5: what a call of [deploy_app] says, by the way it ends.  It calls
    [exit], with status 1, only when the source path does not exist, and
    then it has printed the line about the missing source and nothing
    else.  Otherwise it prints the line about the copy first; the
    renderings follow, of marked names and of none twice; and the line
    that the deployment was created is printed last, when and only when
    the call returns. *)
Theorem deploy_app_messages opts w :
  let src := Opts.srcDir opts in
  let dst := Opts.destDir opts in
  let o := deploy_app jinja_render listing opts w in
  let said names :=
    trace w ++ Printed (Copying src dst)
               :: renderings dst (Opts.inputJSON opts) names in
  match o with
  | Exited code w' =>
      code = 1%Z ∧ os_path_exists src w = false
      ∧ w' = emit (Printed (MissingSource src)) w
  | Done w' =>
      ∃ names, NoDup names ∧ Forall (λ n, marked n) names
               ∧ trace w' = said names ++ [Printed (Created (Opts.app opts))]
  | Raised e w' =>
      os_path_exists src w = true
      ∧ ∃ names, NoDup names ∧ Forall (λ n, marked n) names
                 ∧ trace w' = said names
  end
  ∧ ((∃ w', o = Done w')
     ↔ last (trace (final o)) = Some (Printed (Created (Opts.app opts)))).
Proof.
  cbv zeta. pose proof (deploy_app_said opts w) as H. split; [exact H|].
  destruct (deploy_app jinja_render listing opts w) as [w'|c w'|e w'];
    cbn [final].
  - destruct H as (names & _ & _ & ->). rewrite last_snoc.
    split; [done|]. intros _. by exists w'.
  - destruct H as (_ & _ & ->). cbn [emit trace]. rewrite last_snoc.
    split; [by intros [? ?]|done].
  - destruct H as (_ & names & _ & _ & ->).
    split; [by intros [? ?]|]. intros Hl. by apply last_said in Hl.
Qed.

(** X6: the test before the copy asks only whether the source path
    exists.  A source path that is a regular file passes it, and so does
    any source when the destination path is a regular file; [copy_tree]
    then raises [DistutilsFileError].  The call does not end with the
    message about a missing source and [exit(1)], and no file has
    changed. *)
Theorem deploy_app_not_a_directory opts w :
  os_path_exists (Opts.srcDir opts) w = true →
  os_path_isdir (Opts.srcDir opts) w = false
  ∨ (∃ c, stat (Opts.destDir opts) w = Some (File c)) →
  deploy_app jinja_render listing opts w
  = Raised DistutilsFileError
      (emit (Printed (Copying (Opts.srcDir opts) (Opts.destDir opts))) w).
Proof.
  intros Hex Hkind. unfold deploy_app. rewrite Hex. cbn [negb].
  unfold copy_tree. rewrite !stat_emit.
  unfold os_path_exists, os_path_isdir in *.
  destruct (stat (Opts.srcDir opts) w) as [[c|S]|]; [done| |done].
  destruct Hkind as [?|[c ->]]; done.
Qed.

(** X7: a call of [deploy_app] writes below its destination directory
    only.  Whatever its outcome, a path that leaves the way to the
    destination leads to what it led to before the call; the source
    directory is such a path whenever it is not the destination or a
    directory around or below it. *)
Theorem deploy_app_writes_below_destination opts w p :
  Forall (λ x, x ≠ "") p → diverge p (norm (Opts.destDir opts)) →
  stat p (final (deploy_app jinja_render listing opts w)) = stat p w.
Proof. intros Hcan Hd. by apply deploy_app_outside. Qed.

(** X8: the loop makes one pass.  Over a directory that has no name
    [x.j2.j2] beside [x.j2], a loop that reaches its end leaves a marked
    name [n] exactly when the directory held [n.j2], a name marked twice:
    then [n] holds the rendering of [n.j2] and is not rendered itself.
    No other marked name remains. *)
Theorem marked_names_after_the_loop dest_dir d input_json w w' :
  stat dest_dir w = Some (Dir d) → no_marked_pair d →
  render_marked jinja_render dest_dir (listing (map_to_list d).*1)
    input_json w = Done w' →
  ∃ d', stat dest_dir w' = Some (Dir d')
        ∧ ∀ n, marked n →
            match d !! (n +:+ ".j2") with
            | Some t =>
                ∃ source out, t = File source
                  ∧ renders jinja_render dest_dir input_json source out
                  ∧ d' !! n = Some (File out)
            | None => d' !! n = None
            end.
Proof.
  intros Hst Hpair Hrun.
  destruct (loop_top jinja_render listing listing_perm _ _ _ _ _ Hst Hpair Hrun)
    as (d' & Hst' & _ & Hent).
  exists d'. split; [done|]. intros n Hn.
  destruct (Hent n) as [(source & out & H1 & H2 & H3 & _)|[H1 H2]].
  - rewrite H1. by exists source, out.
  - by rewrite H1, H2, Hn.
Qed.

(** Where the loop stops when a rendering raises. *)
Lemma render_marked_raised dd ctx l : ∀ w d e w',
  stat dd w = Some (Dir d) → NoDup l →
  (∀ m, m ∈ l → marked m → is_Some (d !! m)) →
  render_marked jinja_render dd l ctx w = Raised e w' →
  ∃ d' n, stat dd w' = Some (Dir d')
          ∧ last (trace w') = Some (Rendered dd n ctx)
          ∧ marked n ∧ n ∈ l ∧ is_Some (d' !! n).
Proof.
  induction l as [|m l IH]; intros w d e w' Hst Hnd Hin Hrun; [done|].
  apply NoDup_cons in Hnd as [Hml Hnd].
  assert (∀ m', m' ∈ l → marked m' → is_Some (d !! m')) as Hin'.
  { intros m' Hm'. apply Hin. by right. }
  cbn [render_marked] in Hrun. destruct (Str.endswith m ".j2") eqn:Hm.
  2:{ destruct (IH w d e w' Hst Hnd Hin' Hrun)
        as (d' & n & H1 & H2 & H3 & H4 & H5).
      exists d', n. repeat split; try done. by right. }
  assert (is_Some (d !! m)) as Hdm by (apply Hin; [by left|done]).
  assert (∀ e0, Raised e0 (emit (Rendered dd m ctx) w) = Raised e w' →
            ∃ d' n, stat dd w' = Some (Dir d')
                    ∧ last (trace w') = Some (Rendered dd n ctx)
                    ∧ marked n ∧ n ∈ m :: l ∧ is_Some (d' !! n)) as Hstop.
  { intros e0 [= <- <-]. exists d, m.
    split; [done|]. split; [cbn; by rewrite last_snoc|].
    split; [done|]. split; [by left|done]. }
  rewrite (render_template_at _ _ _ _ _ _ _ Hst (marked_nonempty _ Hm)) in Hrun.
  destruct Hdm as [t Hdm]. rewrite Hdm in Hrun. destruct t as [source|sub].
  2:{ by apply (Hstop TemplateNotFound). }
  destruct (jinja_render _ (files w) source ctx) as [out|].
  2:{ by apply (Hstop TemplateError). }
  destruct (decide (unmarked m = "")) as [Hempty|Hfull].
  { by apply (Hstop IsADirectoryError). }
  set (d1 := delete m (<[unmarked m:=File out]> d)) in *.
  set (w1 := with_files (graft (norm dd) d1 (files w))
               (emit (Rendered dd m ctx) w)) in *.
  assert (stat dd w1 = Some (Dir d1)) as Hst1 by by eapply stat_graft.
  assert (∀ m', m' ∈ l → marked m' → is_Some (d1 !! m')) as Hin1.
  { intros m' Hm' Hk. unfold d1.
    assert (m ≠ m') by (by intros ->).
    rewrite lookup_delete_ne by done.
    destruct (decide (unmarked m = m')) as [->|Hne].
    - by rewrite lookup_insert_eq.
    - rewrite lookup_insert_ne by done. by apply Hin'. }
  assert (render_marked jinja_render dd l ctx w1 = Raised e w' →
          ∃ d' n, stat dd w' = Some (Dir d')
                  ∧ last (trace w') = Some (Rendered dd n ctx)
                  ∧ marked n ∧ n ∈ m :: l ∧ is_Some (d' !! n)) as Hgo.
  { intros Hrun'.
    destruct (IH w1 d1 e w' Hst1 Hnd Hin1 Hrun')
      as (d' & n & H1 & H2 & H3 & H4 & H5).
    exists d', n. repeat split; try done. by right. }
  destruct (d !! unmarked m) as [[?|?]|]; [by apply Hgo| |by apply Hgo].
  by apply (Hstop IsADirectoryError).
Qed.

(** X9: nothing is undone when a rendering fails.  A call of
    [deploy_app] that ends with an exception other than the one of the
    copy ends right after it asked for the rendering of a marked name of
    the destination: the destination directory is there, and the entry of
    that name is still in it, since its removal is the last step of a
    rendering.  Nothing is said of the output file of that rendering. *)
Theorem failed_rendering_stays opts w e w' :
  deploy_app jinja_render listing opts w = Raised e w' →
  e ≠ DistutilsFileError →
  ∃ d' n, stat (Opts.destDir opts) w' = Some (Dir d')
          ∧ last (trace w')
            = Some (Rendered (Opts.destDir opts) n (Opts.inputJSON opts))
          ∧ marked n ∧ is_Some (d' !! n).
Proof.
  unfold deploy_app.
  destruct (os_path_exists (Opts.srcDir opts) w); cbn [negb]; [|done].
  set (w0 := emit _ w).
  destruct (copy_tree (Opts.srcDir opts) (Opts.destDir opts) w0)
    as [w1|c w1|e1 w1] eqn:Hcopy; cbn [and_then].
  - destruct (copy_tree_done _ _ _ _ Hcopy) as (S & C & _ & _ & Hst & _).
    unfold os_listdir. rewrite Hst.
    destruct (render_marked jinja_render (Opts.destDir opts)
                (listing (map_to_list C).*1) (Opts.inputJSON opts) w1)
      as [w2|c w2|e2 w2] eqn:Hloop; cbn [and_then]; [done|done|].
    intros [= <- <-] _.
    destruct (render_marked_raised _ _ _ _ _ _ _ Hst
                (listing_NoDup listing listing_perm C)
                (λ m Hm _, proj1 (listing_elem listing listing_perm C m) Hm)
                Hloop)
      as (d' & n & H1 & H2 & H3 & _ & H5).
    by exists d', n.
  - done.
  - intros [= <- <-] Hne. exfalso. apply Hne.
    unfold copy_tree in Hcopy.
    destruct (stat (Opts.srcDir opts) w0) as [[?|s]|]; [congruence| |congruence].
    destruct (stat (Opts.destDir opts) w0) as [[?|?]|]; [congruence| |];
      (destruct (copy_into _ _) as [d' ok];
       destruct (place true (norm (Opts.destDir opts)) (Dir d') (files w0));
       [destruct ok; [done|congruence]|congruence]).
Qed.

(** X10: the destination is not cleared, and the loop lists the
    destination, not the source.  After a call that returns, an entry of
    the destination that the source does not name is still there as it
    was when its name is not marked and no template renders to it; and
    when its name is marked it was handed to Jinja2 like the templates of
    the source. *)
Theorem leftovers_in_the_destination opts w w' S k :
  deploy_app jinja_render listing opts w = Done w' →
  stat (Opts.srcDir opts) w = Some (Dir S) →
  S !! k = None →
  let before := entries_of (stat (Opts.destDir opts) w) in
  ∃ after,
    stat (Opts.destDir opts) w' = Some (Dir after)
    ∧ (Str.endswith k ".j2" = false → S !! (k +:+ ".j2") = None →
       before !! (k +:+ ".j2") = None → after !! k = before !! k)
    ∧ (marked k → is_Some (before !! k) →
       Rendered (Opts.destDir opts) k (Opts.inputJSON opts) ∈ trace w').
Proof.
  intros Hrun Hsrc HS. cbv zeta.
  destruct (deploy_app_done_inv _ _ _ _ _ Hrun)
    as (S' & C & es1 & w2 & Hsrc' & Hnf & Hcopy & Hplace & Hloop & ->).
  rewrite Hsrc in Hsrc'. injection Hsrc' as <-.
  set (D0 := entries_of (stat (Opts.destDir opts) w)) in *.
  assert (∀ j, S !! j = None → C !! j = D0 !! j) as Hkeep.
  { intros j Hj. pose proof (copy_into_lookup _ _ _ j Hcopy) as Hc.
    rewrite Hj in Hc. cbn [copy_entry] in Hc. congruence. }
  set (w1 := with_files es1 _) in *.
  assert (stat (Opts.destDir opts) w1 = Some (Dir C)) as Hst1.
  { by apply (stat_placed _ _ (files w)). }
  destruct (render_marked_inside (Opts.destDir opts) (Opts.inputJSON opts)
              (listing (map_to_list C).*1) w1 C Hst1) as (after & Hafter).
  rewrite Hloop in Hafter. cbn [final] in Hafter.
  exists after. rewrite stat_emit. split; [done|]. split.
  - intros Hk HSj HDj.
    destruct (rendering_spares jinja_render listing listing_perm _ _ k
                (Opts.inputJSON opts) _ Hst1 Hk) as (D' & HD' & HDk).
    { rewrite (Hkeep _ HSj). exact HDj. }
    rewrite Hloop in HD'. cbn [final] in HD'. rewrite Hafter in HD'.
    injection HD' as <-. by rewrite HDk, Hkeep.
  - intros Hk Hsome.
    destruct (render_marked_trace jinja_render (Opts.destDir opts)
                (Opts.inputJSON opts) _ w1 C Hst1
                (listing_NoDup listing listing_perm C))
      as (names & _ & Htr & Hall).
    { intros m Hm _. by apply (listing_elem listing listing_perm). }
    rewrite Hloop in Htr. cbn [final] in Htr.
    rewrite (Hall w2 Hloop) in Htr. cbn [emit trace]. rewrite Htr.
    apply elem_of_app. left. apply elem_of_app. right.
    unfold renderings. apply list_elem_of_fmap. exists k. split; [done|].
    apply marked_of_elem. split; [done|].
    apply (listing_elem listing listing_perm). by rewrite (Hkeep _ HS).
Qed.
End OneApplication.


(** ** The whole run *)
Section WholeRun.
Variable jinja_render :
  Environment → gmap string node → string → gmap string json → option string.
Variable listing : list string → list string.
Hypothesis listing_perm : ∀ l, listing l ≡ₚ l.

Lemma plain_name_nonempty s : plain_name s = true → s ≠ "".
Proof.
  unfold plain_name. intros [H _]%andb_prop ->.
  apply bool_decide_eq_true in H. apply H. by left.
Qed.

Lemma stat_top t w : t ≠ "" → stat [t] w = files w !! t.
Proof.
  intros Ht. unfold stat. cbn. rewrite decide_False by done.
  by destruct (files w !! t).
Qed.

Lemma deploy_app_spares_top opts w t d a :
  Opts.destDir opts = [d; a] → t ≠ "" → d ≠ "" → t ≠ d →
  files (final (deploy_app jinja_render listing opts w)) !! t = files w !! t.
Proof.
  intros Hdst Ht Hd Htd. rewrite <- !stat_top by done.
  apply deploy_app_outside.
  - by repeat constructor.
  - rewrite Hdst. unfold norm. rewrite filter_cons_True by done.
    by exists [], t, d, [], (filter (λ x, x ≠ "") [a]).
Qed.

Lemma deploy_components_spare_top comps args config t d :
  Args.template args = Some t → Args.destination args = Some d →
  t ≠ "" → d ≠ "" → t ≠ d →
  ∀ w,
    files (final (deploy_components jinja_render listing comps args config [] w))
      !! t = files w !! t.
Proof.
  intros Ht Hd Ht0 Hd0 Htd.
  induction comps as [|c comps IH]; intros w; cbn [deploy_components]; [done|].
  rewrite Ht, Hd. cbn.
  set (opts := {| Opts.inputJSON := config |}).
  pose proof (deploy_app_spares_top opts w t d c eq_refl Ht0 Hd0 Htd) as Hone.
  destruct (deploy_app jinja_render listing opts w) as [w1|? w1|? w1];
    [|done|done].
  cbn [and_then]. by rewrite IH.
Qed.

Lemma deploy_components_app l1 l2 args config cwd : ∀ w,
  deploy_components jinja_render listing (l1 ++ l2) args config cwd w
  = and_then (deploy_components jinja_render listing l1 args config cwd w)
      (deploy_components jinja_render listing l2 args config cwd).
Proof.
  induction l1 as [|c l1 IH]; intros w; cbn [app deploy_components and_then];
    [done|].
  destruct (os_path_join3 cwd (Args.template args) (Some c)); [|done].
  destruct (os_path_join3 cwd (Args.destination args) (Some c)); [|done].
  destruct (deploy_app _ _ _ w) as [w1|? w1|? w1]; [|done|done].
  cbn [and_then]. apply IH.
Qed.

(** X11: a run leaves the template directory as it finds it.  The
    template directory [-t] and the destination [-d] are plain names
    (not empty, not [.] or [..], without a separator) of the working
    directory, and different ones; so is the application name when the
    run is for one application.  Then the entry of the template directory
    is, after the run and whatever its outcome, the entry it was before.
    Names are told apart by their characters, as a directory of a
    case-sensitive file system does. *)
Theorem run_leaves_the_templates args docs fs t d :
  Args.template args = Some t → Args.destination args = Some d →
  plain_name t = true → plain_name d = true → t ≠ d →
  (Args.fullStack args = false →
     ∀ name, Args.app args = Some name → plain_name name = true) →
  files (final (run jinja_render listing args docs fs)) !! t = fs !! t.
Proof.
  intros Ht Hd Ht0%plain_name_nonempty Hd0%plain_name_nonempty Htd _.
  unfold run.
  destruct (Args.input args) as [file|]; [|done].
  destruct (docs !! file) as [fields|]; [|done].
  destruct (Args.fullStack args).
  - by rewrite (deploy_components_spare_top _ _ _ t d).
  - rewrite Ht, Hd. destruct (Args.app args) as [name|]; [|done]. cbn.
    set (opts := {| Opts.inputJSON := dict_update ∅ fields |}).
    by rewrite (deploy_app_spares_top opts _ t d name).
Qed.

(** X12: the loop over the components stops at the first one whose source
    directory is missing.  The process ends there with [exit(1)]: the
    components before it stay deployed, and no component after it is
    looked at, whatever it is. *)
Theorem missing_component_ends_the_loop before c after args config cwd src
    w w1 :
  deploy_components jinja_render listing before args config cwd w = Done w1 →
  os_path_join3 cwd (Args.template args) (Some c) = Some src →
  is_Some (Args.destination args) →
  os_path_exists src w1 = false →
  deploy_components jinja_render listing (before ++ c :: after) args config
    cwd w
  = Exited 1 (emit (Printed (MissingSource src)) w1).
Proof.
  intros Hbefore Hsrc [d Hd] Hex.
  rewrite deploy_components_app, Hbefore. cbn [and_then deploy_components].
  rewrite Hsrc, Hd. cbn.
  rewrite (deploy_app_missing jinja_render listing); [done|done].
Qed.

(** X13: the parser requires none of [-i], [-t] and [-d], and the script
    does not check them.  Without [-i] the run ends with [TypeError] from
    [open] right after it printed the arguments; with an input that loads
    but without [-t] or without [-d] it ends with [TypeError] from joining
    the paths.  In both cases nothing was copied: the files are as
    before, and no message of [deploy_app] was printed. *)
Theorem missing_option_raises args docs fs :
  (Args.input args = None →
     run jinja_render listing args docs fs
     = Raised TypeError
         (emit (Printed (ShowArgs args)) {| files := fs; trace := [] |}))
  ∧ (∀ file, Args.input args = Some file → is_Some (docs !! file) →
       Args.template args = None ∨ Args.destination args = None →
       run jinja_render listing args docs fs
       = Raised TypeError
           (emit (Loaded file)
              (emit (Printed (ShowArgs args)) {| files := fs; trace := [] |}))).
Proof.
  split.
  - intros Hi. unfold run. by rewrite Hi.
  - intros file Hi [fields Hf] Hopt. unfold run. rewrite Hi, Hf.
    assert (∀ b, os_path_join3 [] (Args.template args) b = None
                 ∨ os_path_join3 [] (Args.destination args) b = None) as Hj.
    { intros b. destruct Hopt as [->| ->]; [by left|by right]. }
    destruct (Args.fullStack args).
    + unfold components. cbn [deploy_components].
      destruct (Hj (Some "lambda")) as [-> | ->]; [done|].
      by destruct (os_path_join3 [] (Args.template args) (Some "lambda")).
    + destruct (Hj (Args.app args)) as [-> | ->]; [done|].
      by destruct (os_path_join3 [] (Args.template args) (Args.app args)).
Qed.
End WholeRun.


(** ** What the end of a run depends on *)
Section Ends.
Variable jinja_render :
  Environment → gmap string node → string → gmap string json → option string.
Variable listing : list string → list string.

Lemma same_end_and_then o o' k k' :
  same_end o o' →
  (∀ w w', files w = files w' → same_end (k w) (k' w')) →
  same_end (and_then o k) (and_then o' k').
Proof.
  intros Ho Hk. destruct o as [w|c w|e w], o' as [w'|c' w'|e' w']; try done.
  by apply Hk.
Qed.

Lemma same_end_final o o' :
  same_end o o' →
  files (final o) = files (final o') ∧ exit_status o = exit_status o'.
Proof.
  destruct o as [w|c w|e w], o' as [w'|c' w'|e' w']; try done; cbn;
    by intros [-> ->].
Qed.

Lemma stat_same p w w' : files w = files w' → stat p w = stat p w'.
Proof. unfold stat. by intros ->. Qed.

Lemma write_text_same p text w w' :
  files w = files w' → same_end (write_text p text w) (write_text p text w').
Proof.
  intros H. unfold write_text. rewrite (stat_same p w w' H), H.
  destruct (stat p w') as [[?|?]|]; try done;
    (destruct (decide (last p = Some "")); [done|]);
    by destruct (place false (norm p) (File text) (files w')).
Qed.

Lemma os_remove_same p w w' :
  files w = files w' → same_end (os_remove p w) (os_remove p w').
Proof.
  intros H. unfold os_remove. rewrite (stat_same p w w' H), H.
  destruct (stat p w') as [[?|?]|]; try done.
  by destruct (unlink (norm p) (files w')).
Qed.

Lemma copy_tree_same src dst w w' :
  files w = files w' → same_end (copy_tree src dst w) (copy_tree src dst w').
Proof.
  intros H. unfold copy_tree.
  rewrite (stat_same src w w' H), (stat_same dst w w' H), H.
  destruct (stat src w') as [[?|s]|]; try done.
  destruct (stat dst w') as [[?|?]|]; try done;
    (destruct (copy_into _ _) as [d' ok];
     destruct (place true (norm dst) (Dir d') (files w')); [by destruct ok|done]).
Qed.

Lemma render_template_same dd n f ctx w w' :
  files w = files w' →
  same_end (render_template jinja_render dd n f ctx w)
    (render_template jinja_render dd n f ctx w').
Proof.
  intros H. unfold render_template, os_path_exists, get_template_render.
  cbn [loader]. rewrite !stat_emit, (stat_same _ w w' H).
  cbn [emit files]. rewrite H.
  destruct (stat (os_path_join dd n) w') as [[source|?]|]; cbn [negb];
    [|done|done].
  destruct (jinja_render _ (files w') source ctx) as [out|]; [|done].
  apply same_end_and_then; [by apply write_text_same|].
  intros v v' Hv. by apply os_remove_same.
Qed.

Lemma render_marked_same dd ctx l : ∀ w w',
  files w = files w' →
  same_end (render_marked jinja_render dd l ctx w)
    (render_marked jinja_render dd l ctx w').
Proof.
  induction l as [|m l IH]; intros w w' H; cbn [render_marked]; [done|].
  destruct (Str.endswith m ".j2"); [|by apply IH].
  apply same_end_and_then; [by apply render_template_same|done].
Qed.

Lemma deploy_app_same opts opts' w w' :
  Opts.srcDir opts = Opts.srcDir opts' →
  Opts.destDir opts = Opts.destDir opts' →
  Opts.inputJSON opts = Opts.inputJSON opts' →
  files w = files w' →
  same_end (deploy_app jinja_render listing opts w)
    (deploy_app jinja_render listing opts' w').
Proof.
  intros Hs Hd Hj H. unfold deploy_app, os_path_exists.
  rewrite <- Hs, <- Hd, <- Hj, (stat_same _ w w' H).
  destruct (stat (Opts.srcDir opts) w'); cbn [negb]; [|done].
  apply same_end_and_then; [by apply copy_tree_same|].
  intros v v' Hv. unfold os_listdir. rewrite (stat_same _ v v' Hv).
  destruct (stat (Opts.destDir opts) v') as [[?|es]|]; [done| |done].
  apply same_end_and_then; [by apply render_marked_same|done].
Qed.

Lemma deploy_components_same comps args args' config cwd :
  Args.template args = Args.template args' →
  Args.destination args = Args.destination args' →
  ∀ w w', files w = files w' →
    same_end (deploy_components jinja_render listing comps args config cwd w)
      (deploy_components jinja_render listing comps args' config cwd w').
Proof.
  intros Ht Hd. induction comps as [|c comps IH]; intros w w' H;
    cbn [deploy_components]; [done|].
  rewrite <- Ht, <- Hd.
  destruct (os_path_join3 cwd (Args.template args) (Some c)); [|done].
  destruct (os_path_join3 cwd (Args.destination args) (Some c)); [|done].
  apply same_end_and_then; [by apply deploy_app_same|done].
Qed.

Lemma deploy_app_status opts w :
  match deploy_app jinja_render listing opts w with
  | Exited c _ => c = 1%Z
  | _ => True
  end.
Proof.
  destruct (os_path_exists (Opts.srcDir opts) w) eqn:Hex.
  - pose proof (deploy_app_no_exit jinja_render listing opts w Hex) as Hne.
    by destruct (deploy_app jinja_render listing opts w).
  - by rewrite (deploy_app_missing jinja_render listing opts w Hex).
Qed.

Lemma deploy_components_status comps args config cwd : ∀ w,
  match deploy_components jinja_render listing comps args config cwd w with
  | Exited c _ => c = 1%Z
  | _ => True
  end.
Proof.
  induction comps as [|c comps IH]; intros w; cbn [deploy_components]; [done|].
  destruct (os_path_join3 cwd (Args.template args) (Some c)) as [src|]; [|done].
  destruct (os_path_join3 cwd (Args.destination args) (Some c)) as [dst|];
    [|done].
  set (opts := {| Opts.inputJSON := config |}).
  pose proof (deploy_app_status opts w) as Hone.
  destruct (deploy_app jinja_render listing opts w); [apply IH|done|done].
Qed.

(** X14: the exit status of a run that got past the parser is 0 or 1,
    since [exit(1)] is the only exit of the script, and it is 0 exactly
    when the script reached its end.  For one application the last thing
    a run with status 0 did was to print that the deployment for that
    application was created. *)
Theorem status_of_a_run args docs fs :
  let o := run jinja_render listing args docs fs in
  (exit_status o = 0%Z ∨ exit_status o = 1%Z)
  ∧ (exit_status o = 0%Z ↔ ∃ w', o = Done w')
  ∧ (Args.fullStack args = false → exit_status o = 0%Z →
     ∃ name, Args.app args = Some name
             ∧ last (trace (final o)) = Some (Printed (Created name))).
Proof.
  cbv zeta.
  assert (∀ o : outcome,
            match o with Exited c _ => c = 1%Z | _ => True end →
            (exit_status o = 0%Z ∨ exit_status o = 1%Z)
            ∧ (exit_status o = 0%Z ↔ ∃ w', o = Done w')) as Hstatus.
  { intros [w'|c w'|e w'] Hc; cbn.
    - split; [by left|]. split; [by eexists|done].
    - subst c. split; [by right|]. split; [done|by intros [? ?]].
    - split; [by right|]. split; [done|by intros [? ?]]. }
  assert (match run jinja_render listing args docs fs with
          | Exited c _ => c = 1%Z
          | _ => True
          end) as Hone.
  { unfold run.
    destruct (Args.input args) as [file|]; [|done].
    destruct (docs !! file) as [fields|]; [|done].
    destruct (Args.fullStack args); [apply deploy_components_status|].
    destruct (os_path_join3 [] (Args.template args) (Args.app args)); [|done].
    destruct (os_path_join3 [] (Args.destination args) (Args.app args));
      [|done].
    destruct (Args.app args) as [name|]; [|done].
    apply deploy_app_status. }
  destruct (Hstatus _ Hone) as [H1 H2]. split; [done|]. split; [done|].
  intros Hf Hzero. apply H2 in Hzero as [w' Hrun].
  rewrite Hrun. cbn [final]. clear Hone H1 H2.
  unfold run in Hrun. rewrite Hf in Hrun.
  destruct (Args.input args) as [file|]; [|done].
  destruct (docs !! file) as [fields|]; [|done].
  destruct (os_path_join3 [] (Args.template args) (Args.app args)); [|done].
  destruct (os_path_join3 [] (Args.destination args) (Args.app args));
    [|done].
  destruct (Args.app args) as [name|]; [|done].
  exists name. split; [done|].
  destruct (deploy_app_done_inv _ _ _ _ _ Hrun)
    as (_ & _ & _ & w2 & _ & _ & _ & _ & _ & ->).
  cbn [emit trace]. by rewrite last_snoc.
Qed.

(** X15: in full-stack mode the option [-a] has no effect.  Two runs with
    [--fullStack] that differ in the application name only end the same
    way, with the same exit status and the same files. *)
Theorem full_stack_ignores_app args args' docs fs :
  Args.fullStack args = true → Args.fullStack args' = true →
  Args.template args = Args.template args' →
  Args.input args = Args.input args' →
  Args.destination args = Args.destination args' →
  let o := run jinja_render listing args docs fs in
  let o' := run jinja_render listing args' docs fs in
  same_end o o'
  ∧ files (final o) = files (final o') ∧ exit_status o = exit_status o'.
Proof.
  intros Hf Hf' Ht Hi Hd. cbv zeta.
  assert (same_end (run jinja_render listing args docs fs)
            (run jinja_render listing args' docs fs)) as H.
  { unfold run. rewrite Hf, Hf', <- Hi.
    destruct (Args.input args) as [file|]; [|done].
    destruct (docs !! file) as [fields|]; [|done].
    by apply deploy_components_same. }
  split; [done|]. by apply same_end_final.
Qed.
End Ends.


(** * The further properties on concrete inputs *)


Lemma render_template_onto_itself_witness :
  ∃ w',
    render_template Tiny.tiny_jinja ["out"] "greeting.txt.j2" "greeting.txt.j2"
      Fixture.ada (Fixture.start Fixture.out_web) = Done w'
    ∧ stat ["out"] w' = Some (Dir ∅)
    ∧ stat ["out"; "greeting.txt.j2"] w' = None.
Proof.
  destruct (render_template_onto_itself Tiny.tiny_jinja ["out"]
              {[ "greeting.txt.j2" := File "Hello, {{ name }}!" ]}
              "greeting.txt.j2" "Hello, {{ name }}!" "Hello, Ada!"
              Fixture.ada (Fixture.start Fixture.out_web))
    as (w' & Hrun & Hdir & Hgone).
  - vm_compute. reflexivity.
  - vm_compute. discriminate.
  - vm_compute. reflexivity.
  - vm_compute. reflexivity.
  - exists w'. split; [exact Hrun|]. split; [|exact Hgone].
    rewrite Hdir. vm_compute. reflexivity.
Defined.

Lemma output_name_round_trip_witness :
  unmarked "greeting.txt.j2" +:+ ".j2" = "greeting.txt.j2"
  ∧ String.length "greeting.txt.j2" = String.length (unmarked "greeting.txt.j2") + 3
  ∧ Str.slice_to_minus 3 "j2" = "".
Proof.
  destruct output_name_round_trip as (Hback & _ & Hshort).
  destruct (Hback "greeting.txt.j2") as [H1 H2]; [vm_compute; reflexivity|].
  split; [exact H1|]. split; [exact H2|].
  apply (Hshort "j2"). vm_compute. lia.
Defined.

Lemma each_template_rendered_once_witness :
  let w := Fixture.start {[ "out" := Dir Sample.two_templates ]} in
  let l := id (map_to_list Sample.two_templates).*1 in
  let o := render_marked Tiny.tiny_jinja ["out"] l Fixture.ada w in
  NoDup (marked_of l)
  ∧ (∀ n, n ∈ marked_of l ↔ marked n ∧ is_Some (Sample.two_templates !! n))
  ∧ ∃ names,
      names `prefix_of` marked_of l
      ∧ trace (final o) = trace w ++ renderings ["out"] Fixture.ada names
      ∧ (∀ w', o = Done w' → names = marked_of l).
Proof.
  apply (each_template_rendered_once Tiny.tiny_jinja id (λ l, reflexivity l)
           ["out"] Sample.two_templates Fixture.ada
           (Fixture.start {[ "out" := Dir Sample.two_templates ]})).
  vm_compute. reflexivity.
Defined.

Lemma deploy_app_messages_witness :
  ∃ w' names,
    deploy_app Tiny.tiny_jinja id Fixture.opts_web (Fixture.start Fixture.fs_web)
    = Done w'
    ∧ trace w'
      = Printed (Copying ["tpl"; "web"] ["out"; "web"])
        :: renderings ["out"; "web"] Fixture.ada names
        ++ [Printed (Created "web")].
Proof.
  destruct (deploy_app_messages Tiny.tiny_jinja id (λ l, reflexivity l)
              Fixture.opts_web (Fixture.start Fixture.fs_web)) as [H _].
  destruct (deploy_app Tiny.tiny_jinja id Fixture.opts_web
              (Fixture.start Fixture.fs_web)) as [w'|c w'|e w'] eqn:Hrun;
    [|vm_compute in Hrun; discriminate Hrun|vm_compute in Hrun; discriminate Hrun].
  destruct H as (names & _ & _ & Htr).
  exists w', names. split; [reflexivity|exact Htr].
Defined.

Lemma deploy_app_not_a_directory_witness :
  deploy_app Tiny.tiny_jinja id Fixture.opts_web
    (Fixture.start Sample.fs_file_source)
  = Raised DistutilsFileError
      (emit (Printed (Copying ["tpl"; "web"] ["out"; "web"]))
         (Fixture.start Sample.fs_file_source)).
Proof.
  apply (deploy_app_not_a_directory Tiny.tiny_jinja id Fixture.opts_web
           (Fixture.start Sample.fs_file_source)).
  - vm_compute. reflexivity.
  - left. vm_compute. reflexivity.
Defined.

Lemma deploy_app_writes_below_destination_witness :
  let w := Fixture.start Fixture.fs_web in
  stat ["tpl"; "web"] (final (deploy_app Tiny.tiny_jinja id Fixture.opts_web w))
  = stat ["tpl"; "web"] w.
Proof.
  apply (deploy_app_writes_below_destination Tiny.tiny_jinja id
           Fixture.opts_web (Fixture.start Fixture.fs_web) ["tpl"; "web"]).
  - repeat constructor; vm_compute; discriminate.
  - exists [], "tpl", "out", ["web"], ["web"].
    split; [reflexivity|]. split; [vm_compute; reflexivity|discriminate].
Defined.

Lemma run_leaves_the_templates_witness :
  files (final (run Tiny.tiny_jinja id Fixture.args_web Fixture.docs
                  Fixture.fs_web)) !! "tpl"
  = Fixture.fs_web !! "tpl".
Proof.
  apply (run_leaves_the_templates Tiny.tiny_jinja id Fixture.args_web
           Fixture.docs Fixture.fs_web "tpl" "out").
  - reflexivity.
  - reflexivity.
  - vm_compute. reflexivity.
  - vm_compute. reflexivity.
  - discriminate.
  - intros _ name Hname. injection Hname as <-. vm_compute. reflexivity.
Defined.

Lemma marked_names_after_the_loop_witness :
  let w := Fixture.start {[ "out" := Dir Sample.twice ]} in
  let o := render_marked Tiny.tiny_jinja ["out"]
             (id (map_to_list Sample.twice).*1) Fixture.ada w in
  ∃ d', stat ["out"] (final o) = Some (Dir d')
        ∧ is_Some (d' !! "a.j2")
        ∧ d' !! "b.j2" = None.
Proof.
  cbv zeta.
  destruct (marked_names_after_the_loop Tiny.tiny_jinja id (λ l, reflexivity l)
              ["out"] Sample.twice Fixture.ada
              (Fixture.start {[ "out" := Dir Sample.twice ]})
              (final (render_marked Tiny.tiny_jinja ["out"]
                        (id (map_to_list Sample.twice).*1) Fixture.ada
                        (Fixture.start {[ "out" := Dir Sample.twice ]}))))
    as (d' & Hst & Hn).
  - vm_compute. reflexivity.
  - apply no_marked_pair_check. vm_compute. reflexivity.
  - vm_compute. reflexivity.
  - exists d'. split; [exact Hst|]. split.
    + pose proof (Hn "a.j2" eq_refl) as Ha.
      change (Sample.twice !! ("a.j2" +:+ ".j2"))
        with (Some (File "Dear {{ name }}")) in Ha.
      destruct Ha as (source & out & _ & _ & Hout).
      rewrite Hout. exists (File out). reflexivity.
    + pose proof (Hn "b.j2" eq_refl) as Hb.
      change (Sample.twice !! ("b.j2" +:+ ".j2")) with (@None node) in Hb.
      exact Hb.
Defined.

Lemma missing_component_ends_the_loop_witness :
  let w := Fixture.start Sample.fs_lambda in
  let w1 := final (deploy_components Tiny.tiny_jinja id ["lambda"]
                     Fixture.args_full Fixture.ada [] w) in
  deploy_components Tiny.tiny_jinja id (["lambda"] ++ "queue" :: ["topic"])
    Fixture.args_full Fixture.ada [] w
  = Exited 1 (emit (Printed (MissingSource ["tpl"; "queue"])) w1).
Proof.
  apply (missing_component_ends_the_loop Tiny.tiny_jinja id ["lambda"] "queue"
           ["topic"] Fixture.args_full Fixture.ada [] ["tpl"; "queue"]).
  - vm_compute. reflexivity.
  - vm_compute. reflexivity.
  - exists "out". reflexivity.
  - vm_compute. reflexivity.
Defined.

Lemma missing_option_raises_witness :
  run Tiny.tiny_jinja id default_args Fixture.docs Fixture.fs_web
  = Raised TypeError
      (emit (Printed (ShowArgs default_args)) (Fixture.start Fixture.fs_web))
  ∧ run Tiny.tiny_jinja id Sample.args_no_destination Fixture.docs Fixture.fs_web
    = Raised TypeError
        (emit (Loaded "in.json")
           (emit (Printed (ShowArgs Sample.args_no_destination))
              (Fixture.start Fixture.fs_web))).
Proof.
  split.
  - destruct (missing_option_raises Tiny.tiny_jinja id default_args
                Fixture.docs Fixture.fs_web) as [H _].
    apply H. reflexivity.
  - destruct (missing_option_raises Tiny.tiny_jinja id
                Sample.args_no_destination Fixture.docs Fixture.fs_web)
      as [_ H].
    apply (H "in.json").
    + reflexivity.
    + exists [("name", JStr "Ada")]. vm_compute. reflexivity.
    + right. reflexivity.
Defined.

Lemma leftovers_in_the_destination_witness :
  let w := Fixture.start Fixture.fs_stale in
  let w' := final (deploy_app Tiny.tiny_jinja id Fixture.opts_web w) in
  ∃ after, stat ["out"; "web"] w' = Some (Dir after)
           ∧ after !! "stale.txt" = Some (File "old").
Proof.
  cbv zeta.
  destruct (leftovers_in_the_destination Tiny.tiny_jinja id (λ l, reflexivity l)
              Fixture.opts_web (Fixture.start Fixture.fs_stale)
              (final (deploy_app Tiny.tiny_jinja id Fixture.opts_web
                        (Fixture.start Fixture.fs_stale)))
              Fixture.plain "stale.txt")
    as (after & Hst & Hkeep & _).
  - vm_compute. reflexivity.
  - vm_compute. reflexivity.
  - vm_compute. reflexivity.
  - exists after. split; [exact Hst|].
    rewrite Hkeep; vm_compute; reflexivity.
Defined.

Lemma status_of_a_run_witness :
  let o := run Tiny.tiny_jinja id Fixture.args_web Fixture.docs Fixture.fs_web in
  exit_status o = 0%Z
  ∧ last (trace (final o)) = Some (Printed (Created "web")).
Proof.
  cbv zeta.
  destruct (status_of_a_run Tiny.tiny_jinja id Fixture.args_web Fixture.docs
              Fixture.fs_web) as (_ & _ & H).
  assert (exit_status (run Tiny.tiny_jinja id Fixture.args_web Fixture.docs
                         Fixture.fs_web) = 0%Z) as Hzero.
  { vm_compute. reflexivity. }
  split; [exact Hzero|].
  destruct (H eq_refl Hzero) as (name & Hname & Hlast).
  injection Hname as <-. exact Hlast.
Defined.

Lemma full_stack_ignores_app_witness :
  let o := run Tiny.tiny_jinja id Fixture.args_full Fixture.docs
             Sample.fs_lambda in
  let o' := run Tiny.tiny_jinja id Sample.args_full_app Fixture.docs
              Sample.fs_lambda in
  same_end o o' ∧ files (final o) = files (final o')
  ∧ exit_status o = exit_status o'.
Proof.
  apply (full_stack_ignores_app Tiny.tiny_jinja id Fixture.args_full
           Sample.args_full_app Fixture.docs Sample.fs_lambda);
    reflexivity.
Defined.

Lemma failed_rendering_stays_witness :
  let w' := final (deploy_app Tiny.tiny_jinja id Sample.opts_lambda
                     (Fixture.start Fixture.fs_broken)) in
  ∃ d' n, stat ["out"; "lambda"] w' = Some (Dir d')
          ∧ last (trace w') = Some (Rendered ["out"; "lambda"] n Fixture.ada)
          ∧ marked n ∧ is_Some (d' !! n).
Proof.
  cbv zeta.
  apply (failed_rendering_stays Tiny.tiny_jinja id (λ l, reflexivity l)
           Sample.opts_lambda (Fixture.start Fixture.fs_broken) TemplateError).
  - vm_compute. reflexivity.
  - discriminate.
Defined.
